(** * model.py: encoder / Luong-attention decoder over a tensor framework

    A shallow embedding of [model.py].  Tensor entries are real numbers
    (the rounding of the framework's floating-point kernels is abstracted);
    a tensor is its sizes together with its indexing function, which is what
    the module's code observes of a framework tensor (views such as [t],
    [transpose], [expand] and slices only change sizes and indexing).

    The module's own classes ([EncoderRNN], [Attn], [LuongAttnDecoderRNN])
    and its import-time code are translated line by line.  The framework
    operations they call are given by their documented semantics; the
    recurrent and dropout kernels, the initial parameter values and the
    hyper-parameter checks of the framework's constructors are left as the
    interface [Framework]. *)

From Stdlib Require Import List String ZArith Bool Arith Lia Reals Lra.
Import ListNotations.
Local Open Scope string_scope.
Local Open Scope nat_scope.

(** ** Exceptions and results *)

(** Errors raised inside the framework. *)
Inductive torch_error :=
| CtorRejected          (* a framework constructor refused its hyper-parameters:
                           a Python ValueError raised inside the framework *)
| IndexOutOfRange       (* embedding lookup outside the table *)
| PackEmpty             (* pack_padded_sequence: "Cannot pack empty tensors." *)
| PackLengthsMismatch   (* len(lengths) differs from the batch size *)
| PackNonPositive       (* a length is <= 0 *)
| PackUnsorted          (* lengths not sorted in decreasing order *)
| RnnInputSize          (* input.size(-1) differs from input_size *)
| RnnPackedData         (* packed data shorter or longer than sum(batch_sizes) *)
| RnnHiddenSize         (* initial hidden state of the wrong kind or size *)
| ShapeMismatch         (* sizes that neither agree nor broadcast *)
| CudaUnavailable.      (* a CUDA placement without a CUDA device *)

(** What a call of the module can raise.  [ValueError] is the exception of
    the only [raise] statement of [model.py] (line 73), with its two
    arguments; the next two come from the interpreter, the last from the
    framework. *)
Inductive exn :=
| ValueError (arg : string) (msg : string)
| UnboundLocalError (name : string)
| AttributeError (name : string)
| FrameworkError (e : torch_error).

Inductive result (A : Type) :=
| Ok (a : A)
| Raise (e : exn).
Arguments Ok {A} a.
Arguments Raise {A} e.

Definition bind {A B} (r : result A) (k : A -> result B) : result B :=
  match r with
  | Ok a => k a
  | Raise e => Raise e
  end.

Declare Scope result_scope.
Delimit Scope result_scope with result.
Notation "x <- r ;; k" := (bind r (fun x => k))
  (at level 61, r at next level, right associativity) : result_scope.
Notation "' p <- r ;; k" := (bind r (fun x => let p := x in k))
  (at level 61, p pattern, r at next level, right associativity) : result_scope.
Local Open Scope result_scope.

Definition torch_raise {A} (e : torch_error) : result A := Raise (FrameworkError e).

(** Whether the exception is of the Python class ValueError: the one of
    line 73, and the one a framework constructor raises when it refuses its
    hyper-parameters. *)
Definition is_value_error (e : exn) : bool :=
  match e with
  | ValueError _ _ => true
  | FrameworkError CtorRejected => true
  | _ => false
  end.

(** ** Tensors *)

Record Tensor1 := mk1 { len1 : nat; at1 : nat -> R }.
Record Tensor2 := mk2 { rows : nat; cols : nat; at2 : nat -> nat -> R }.
Record Tensor3 := mk3 { dim0 : nat; dim1 : nat; dim2 : nat;
                        at3 : nat -> nat -> nat -> R }.
(** A 2-D tensor of word indexes (Python ints). *)
Record LongTensor2 := mkL2 { lrows : nat; lcols : nat; lat : nat -> nat -> Z }.

Definition shape2 (x : Tensor2) : nat * nat := (rows x, cols x).
Definition shape3 (x : Tensor3) : nat * nat * nat := (dim0 x, dim1 x, dim2 x).

(** Literals, for examples. *)
Definition tensor1_of_list (l : list R) : Tensor1 :=
  mk1 (List.length l) (fun i => nth i l 0%R).
Definition tensor2_of_list (c : nat) (l : list (list R)) : Tensor2 :=
  mk2 (List.length l) c (fun i j => nth j (nth i l []) 0%R).
Definition tensor3_of_list (d1 d2 : nat) (l : list (list (list R))) : Tensor3 :=
  mk3 (List.length l) d1 d2 (fun i j k => nth k (nth j (nth i l []) []) 0%R).
Definition long2_of_list (c : nat) (l : list (list Z)) : LongTensor2 :=
  mkL2 (List.length l) c (fun i j => nth j (nth i l []) 0%Z).

(** [sum_n n f] is f 0 + ... + f (n-1): a reduction over one dimension. *)
Fixpoint sum_n (n : nat) (f : nat -> R) : R :=
  match n with
  | O => 0%R
  | S k => (sum_n k f + f k)%R
  end.

(** Broadcasting of one dimension: equal sizes, or one of them is 1. *)
Definition broadcast_dim (a b : nat) : option nat :=
  if a =? b then Some a
  else if a =? 1 then Some b
  else if b =? 1 then Some a
  else None.

(** The index read in a dimension of size [d] for position [i] of the
    broadcast result. *)
Definition bidx (d i : nat) : nat := if d =? 1 then 0 else i.

Definition broadcast3 (op : R -> R -> R) (a b : Tensor3) : result Tensor3 :=
  match broadcast_dim (dim0 a) (dim0 b),
        broadcast_dim (dim1 a) (dim1 b),
        broadcast_dim (dim2 a) (dim2 b) with
  | Some d0, Some d1, Some d2 =>
      Ok (mk3 d0 d1 d2
            (fun i j k =>
               op (at3 a (bidx (dim0 a) i) (bidx (dim1 a) j) (bidx (dim2 a) k))
                  (at3 b (bidx (dim0 b) i) (bidx (dim1 b) j) (bidx (dim2 b) k))))
  | _, _, _ => torch_raise ShapeMismatch
  end.

(** [a * b] and [a + b] on 3-D tensors. *)
Definition mul3 : Tensor3 -> Tensor3 -> result Tensor3 := broadcast3 Rmult.
Definition add3 : Tensor3 -> Tensor3 -> result Tensor3 := broadcast3 Rplus.

(** A 1-D tensor seen against a 3-D one: sizes are aligned from the last
    dimension. *)
Definition as3 (v : Tensor1) : Tensor3 := mk3 1 1 (len1 v) (fun _ _ k => at1 v k).

(** [torch.sum(x, dim=2)] *)
Definition sum_dim2 (x : Tensor3) : Tensor2 :=
  mk2 (dim0 x) (dim1 x) (fun i j => sum_n (dim2 x) (fun k => at3 x i j k)).

(** [x.t()] *)
Definition t (x : Tensor2) : Tensor2 :=
  mk2 (cols x) (rows x) (fun i j => at2 x j i).

(** [x.transpose(0, 1)] *)
Definition transpose01 (x : Tensor3) : Tensor3 :=
  mk3 (dim1 x) (dim0 x) (dim2 x) (fun i j k => at3 x j i k).

(** [F.softmax(x, dim=1)], as the exact function exp(x[i,j]) / sum_j' exp(x[i,j'])
    on real numbers: the rounding, underflow and overflow of the float32
    kernel are not represented. *)
Definition softmax_dim1 (x : Tensor2) : Tensor2 :=
  mk2 (rows x) (cols x)
      (fun i j => (exp (at2 x i j) / sum_n (cols x) (fun j' => exp (at2 x i j')))%R).

(** [x.unsqueeze(1)] *)
Definition unsqueeze1 (x : Tensor2) : Tensor3 :=
  mk3 (rows x) 1 (cols x) (fun i _ k => at2 x i k).

(** [x.squeeze(0)] and [x.squeeze(1)]: the dimension is dropped when its
    size is 1, otherwise the tensor is returned as it is. *)
Definition squeeze0 (x : Tensor3) : Tensor2 + Tensor3 :=
  if dim0 x =? 1 then inl (mk2 (dim1 x) (dim2 x) (fun j k => at3 x 0 j k)) else inr x.
Definition squeeze1 (x : Tensor3) : Tensor2 + Tensor3 :=
  if dim1 x =? 1 then inl (mk2 (dim0 x) (dim2 x) (fun i k => at3 x i 0 k)) else inr x.

(** [x.expand(n, -1, -1)] *)
Definition expand0 (x : Tensor3) (n : nat) : result Tensor3 :=
  if dim0 x =? n then Ok x
  else if dim0 x =? 1 then Ok (mk3 n (dim1 x) (dim2 x) (fun _ j k => at3 x 0 j k))
  else torch_raise ShapeMismatch.

(** [torch.cat((a, b), 2)] on 3-D tensors, [torch.cat((a, b), 1)] on 2-D. *)
Definition cat_dim2 (a b : Tensor3) : result Tensor3 :=
  if (dim0 a =? dim0 b) && (dim1 a =? dim1 b) then
    Ok (mk3 (dim0 a) (dim1 a) (dim2 a + dim2 b)
          (fun i j k => if k <? dim2 a then at3 a i j k else at3 b i j (k - dim2 a)))
  else torch_raise ShapeMismatch.
Definition cat_dim1 (a b : Tensor2) : result Tensor2 :=
  if rows a =? rows b then
    Ok (mk2 (rows a) (cols a + cols b)
          (fun i k => if k <? cols a then at2 a i k else at2 b i (k - cols a)))
  else torch_raise ShapeMismatch.

(** [x[:, :, :n]] and [x[:, :, n:]] *)
Definition slice_to (n : nat) (x : Tensor3) : Tensor3 :=
  mk3 (dim0 x) (dim1 x) (Nat.min n (dim2 x)) (at3 x).
Definition slice_from (n : nat) (x : Tensor3) : Tensor3 :=
  mk3 (dim0 x) (dim1 x) (dim2 x - n) (fun i j k => at3 x i j (n + k)).

(** [a.bmm(b)] *)
Definition bmm (a b : Tensor3) : result Tensor3 :=
  if (dim0 a =? dim0 b) && (dim2 a =? dim1 b) then
    Ok (mk3 (dim0 a) (dim1 a) (dim2 b)
          (fun i j k => sum_n (dim2 a) (fun m => (at3 a i j m * at3 b i m k)%R)))
  else torch_raise ShapeMismatch.

Definition tanh3 (x : Tensor3) : Tensor3 :=
  mk3 (dim0 x) (dim1 x) (dim2 x) (fun i j k => tanh (at3 x i j k)).
Definition tanh2 (x : Tensor2) : Tensor2 :=
  mk2 (rows x) (cols x) (fun i j => tanh (at2 x i j)).

(** ** The framework's layers *)

Inductive rnn_mode := LSTM | GRU.

(** The hidden state of a recurrent layer: one tensor for a GRU, the pair
    [(hn, cn)] for an LSTM. *)
Inductive Hidden :=
| HTensor (h : Tensor3)
| HPair (h c : Tensor3).

Record RNN := mkRNN {
  mode : rnn_mode;
  input_size : nat;
  rnn_hidden_size : nat;
  num_layers : nat;
  rnn_dropout : R;
  bidirectional : bool
}.

Definition num_directions (l : RNN) : nat := if bidirectional l then 2 else 1.

(** Constructor calls whose hyper-parameters the framework checks itself. *)
Inductive ctor_call :=
| CallRNN (l : RNN)
| CallDropout (p : R)
| CallAdam (lr weight_decay : R).

(** What the module takes from the framework without looking inside:
    which hyper-parameters its constructors accept, the values its
    initialisers write into a named parameter, and the numeric kernels of
    the recurrent and dropout layers.  The kernels keep the sizes the
    framework documents for them. *)
Class Framework := {
  ctor_ok : ctor_call -> bool;
  initial_value : string -> nat -> nat -> R;
  rnn_packed_kernel : RNN -> Tensor2 -> list nat -> option Hidden -> Tensor2 * Hidden;
  rnn_kernel : RNN -> Tensor3 -> option Hidden -> Tensor3 * Hidden;
  dropout_kernel : R -> Tensor3 -> Tensor3;
  rnn_packed_kernel_shape : forall l x bs hx,
    shape2 (fst (rnn_packed_kernel l x bs hx))
    = (rows x, num_directions l * rnn_hidden_size l);
  rnn_kernel_shape : forall l x hx,
    shape3 (fst (rnn_kernel l x hx))
    = (dim0 x, dim1 x, num_directions l * rnn_hidden_size l);
  dropout_kernel_shape : forall p x,
    shape3 (dropout_kernel p x) = shape3 x
}.

Section Layers.
Context {fw : Framework}.

(** [nn.Embedding(num_embeddings, embedding_dim)] *)
Record Embedding := mkEmbedding {
  num_embeddings : nat;
  embedding_dim : nat;
  emb_weight : Tensor2
}.

(** The layer is represented by its sizes and weights; the identity of the
    Python object is not. *)
Definition nn_Embedding (n d : nat) : Embedding :=
  mkEmbedding n d (mk2 n d (initial_value "embedding.weight")).

Definition index_ok (n : nat) (z : Z) : bool :=
  ((0 <=? z) && (z <? Z.of_nat n))%Z.

Definition all_index_ok (n : nat) (x : LongTensor2) : bool :=
  forallb (fun i => forallb (fun j => index_ok n (lat x i j)) (seq 0 (lcols x)))
          (seq 0 (lrows x)).

Definition Embedding_forward (e : Embedding) (x : LongTensor2) : result Tensor3 :=
  if all_index_ok (num_embeddings e) x then
    Ok (mk3 (lrows x) (lcols x) (embedding_dim e)
          (fun i j k => at2 (emb_weight e) (Z.to_nat (lat x i j)) k))
  else torch_raise IndexOutOfRange.

(** [nn.Dropout(p)]; the framework raises a ValueError for a [p] it
    refuses. *)
Record Dropout := mkDropout { drop_p : R }.

Definition nn_Dropout (p : R) : result Dropout :=
  if ctor_ok (CallDropout p) then Ok (mkDropout p) else torch_raise CtorRejected.

Definition Dropout_forward (d : Dropout) (x : Tensor3) : Tensor3 :=
  dropout_kernel (drop_p d) x.

(** [nn.Linear(in_features, out_features)]: y = x W^T + b on the last
    dimension. *)
Record Linear := mkLinear {
  in_features : nat;
  out_features : nat;
  weight : Tensor2;
  bias : Tensor1
}.

Definition nn_Linear (name : string) (i o : nat) : Linear :=
  mkLinear i o (mk2 o i (initial_value (name ++ ".weight")))
               (mk1 o (initial_value (name ++ ".bias") 0)).

Definition affine (l : Linear) (x : nat -> R) (o : nat) : R :=
  (sum_n (in_features l) (fun k => x k * at2 (weight l) o k) + at1 (bias l) o)%R.

Definition Linear_forward3 (l : Linear) (x : Tensor3) : result Tensor3 :=
  if dim2 x =? in_features l then
    Ok (mk3 (dim0 x) (dim1 x) (out_features l)
          (fun i j o => affine l (at3 x i j) o))
  else torch_raise ShapeMismatch.

Definition Linear_forward2 (l : Linear) (x : Tensor2) : result Tensor2 :=
  if cols x =? in_features l then
    Ok (mk2 (rows x) (out_features l) (fun i o => affine l (at2 x i) o))
  else torch_raise ShapeMismatch.

(** [nn.LSTM(...)] / [nn.GRU(...)]; the framework raises a ValueError for
    hyper-parameters it refuses. *)
Definition nn_RNN (m : rnn_mode) (input hidden layers : nat) (dropout : R)
    (bidir : bool) : result RNN :=
  let l := mkRNN m input hidden layers dropout bidir in
  if ctor_ok (CallRNN l) then Ok l else torch_raise CtorRejected.

Definition shape3_eqb (x : Tensor3) (d0 d1 d2 : nat) : bool :=
  (dim0 x =? d0) && (dim1 x =? d1) && (dim2 x =? d2).

(** The initial hidden state a layer accepts for a batch of [batch]
    sequences: none (zeros are used), or tensors of
    (num_layers * num_directions, batch, hidden_size), of the layer's kind. *)
Definition hidden_ok (l : RNN) (batch : nat) (hx : option Hidden) : bool :=
  let n := num_layers l * num_directions l in
  match hx, mode l with
  | None, _ => true
  | Some (HTensor h), GRU => shape3_eqb h n batch (rnn_hidden_size l)
  | Some (HPair h c), LSTM =>
      shape3_eqb h n batch (rnn_hidden_size l) && shape3_eqb c n batch (rnn_hidden_size l)
  | _, _ => false
  end.

(** A padded batch packed for a recurrent layer: the rows of the valid
    positions, time step by time step, and the number of rows of each
    step. *)
Record PackedSequence := mkPacked {
  ps_data : Tensor2;
  batch_sizes : list nat
}.

(** The layer applied to a padded (seq_len, batch, input_size) tensor.  The
    framework checks the feature size of the input and the initial hidden
    state before it runs the kernel. *)
Definition RNN_forward (l : RNN) (x : Tensor3) (hx : option Hidden)
    : result (Tensor3 * Hidden) :=
  if negb (dim2 x =? input_size l) then torch_raise RnnInputSize
  else if negb (hidden_ok l (dim1 x) hx) then torch_raise RnnHiddenSize
  else Ok (rnn_kernel l x hx).

(** The layer applied to a packed sequence.  The framework checks the
    feature size, then the initial hidden state against the batch of the
    first step, and then walks the packed rows step by step along
    [batch_sizes] (which fails when the rows and the batch sizes do not add
    up); the output is packed with the batch sizes of the input. *)
Definition RNN_forward_packed (l : RNN) (p : PackedSequence) (hx : option Hidden)
    : result (PackedSequence * Hidden) :=
  if negb (cols (ps_data p) =? input_size l) then torch_raise RnnInputSize
  else if negb (hidden_ok l (hd 0 (batch_sizes p)) hx) then torch_raise RnnHiddenSize
  else if negb (rows (ps_data p) =? list_sum (batch_sizes p)) then torch_raise RnnPackedData
  else
    let r := rnn_packed_kernel l (ps_data p) (batch_sizes p) hx in
    Ok (mkPacked (fst r) (batch_sizes p), snd r).

(** ** Packing and unpacking of padded batches *)

(** lengths[i] >= lengths[i+1] for every i. *)
Fixpoint sorted_decreasing (l : list Z) : bool :=
  match l with
  | a :: (b :: _) as tl => (b <=? a)%Z && sorted_decreasing tl
  | _ => true
  end.

(** The number of sequences still running at time step [s]. *)
Definition count_longer (s : nat) (lengths : list Z) : nat :=
  List.length (filter (fun x => (Z.of_nat s <? x)%Z) lengths).

Definition packed_batch_sizes (lengths : list Z) : list nat :=
  map (fun s => count_longer s lengths) (seq 0 (Z.to_nat (hd 0%Z lengths))).

(** The first row of time step [s] in the packed data. *)
Definition offset (bs : list nat) (s : nat) : nat := list_sum (firstn s bs).

(** The (time step, batch position) a packed row comes from. *)
Fixpoint locate (bs : list nat) (r : nat) : nat * nat :=
  match bs with
  | [] => (0, r)
  | n :: bs' =>
      if r <? n then (0, r)
      else let '(s, b) := locate bs' (r - n) in (S s, b)
  end.

(** [nn.utils.rnn.pack_padded_sequence(x, lengths)], with its defaults
    batch_first=False and enforce_sorted=True.  The framework refuses, in
    this order, an empty input, a number of lengths other than the batch
    size, a last length that is not positive and lengths that are not sorted
    in decreasing order.  It does not compare the lengths with the padded
    length: time steps beyond it have no rows to take, so the data gets
    fewer rows than [batch_sizes] announces. *)
Definition pack_padded_sequence (x : Tensor3) (lengths : list Z)
    : result PackedSequence :=
  if dim0 x * dim1 x * dim2 x =? 0 then torch_raise PackEmpty
  else if negb (List.length lengths =? dim1 x) then torch_raise PackLengthsMismatch
  else if (last lengths 0 <=? 0)%Z then torch_raise PackNonPositive
  else if negb (sorted_decreasing lengths) then torch_raise PackUnsorted
  else
    let bs := packed_batch_sizes lengths in
    Ok (mkPacked
          (mk2 (list_sum (firstn (dim0 x) bs)) (dim2 x)
             (fun r k => let '(s, b) := locate bs r in at3 x s b k))
          bs).

(** [nn.utils.rnn.pad_packed_sequence(p)], first component: the padded
    (max_len, batch, features) tensor, zero outside the valid positions. *)
Definition pad_packed_sequence (p : PackedSequence) : Tensor3 :=
  let bs := batch_sizes p in
  mk3 (List.length bs) (hd 0 bs) (cols (ps_data p))
      (fun s b k =>
         if b <? nth s bs 0 then at2 (ps_data p) (offset bs s + b) k else 0%R).

End Layers.

(** ** The module's classes *)

Section Model.
Context {fw : Framework}.

(** [self.name] for an attribute that [__init__] sets only on some paths. *)
Definition getattr {A} (name : string) (a : option A) : result A :=
  match a with
  | Some x => Ok x
  | None => Raise (AttributeError name)
  end.

(** *** EncoderRNN *)

Record EncoderRNN := mkEncoderRNN {
  enc_n_layers : nat;
  enc_hidden_size : nat;
  enc_embedding : Embedding;
  enc_lstm : option RNN;
  enc_gru : option RNN
}.

(** [EncoderRNN.__init__(self, hidden_size, embedding, n_layers, dropout)];
    [RNN_TYPE] is the global imported from the configuration. *)
Definition EncoderRNN_init (RNN_TYPE : string) (hidden_size : nat)
    (embedding : Embedding) (n_layers : nat) (dropout : R) : result EncoderRNN :=
  if String.eqb RNN_TYPE "LSTM" then
    lstm <- nn_RNN LSTM hidden_size hidden_size n_layers
              (if n_layers =? 1 then 0%R else dropout) true ;;
    Ok (mkEncoderRNN n_layers hidden_size embedding (Some lstm) None)
  else if String.eqb RNN_TYPE "GRU" then
    gru <- nn_RNN GRU hidden_size hidden_size n_layers
             (if n_layers =? 1 then 0%R else dropout) true ;;
    Ok (mkEncoderRNN n_layers hidden_size embedding None (Some gru))
  else
    Ok (mkEncoderRNN n_layers hidden_size embedding None None).

(** Lines 50-57 of [forward]: embedding, packing and the recurrent layer.
    [None] is returned when neither branch of the [if] ran, so that the
    local [outputs] is not bound. *)
Definition EncoderRNN_run_rnn (RNN_TYPE : string) (self : EncoderRNN)
    (input_seq : LongTensor2) (input_lengths : list Z) (hidden : option Hidden)
    : result (option (PackedSequence * Hidden)) :=
  embedded <- Embedding_forward (enc_embedding self) input_seq ;;
  packed <- pack_padded_sequence embedded input_lengths ;;
  if String.eqb RNN_TYPE "LSTM" then
    lstm <- getattr "lstm" (enc_lstm self) ;;
    r <- RNN_forward_packed lstm packed None ;;
    Ok (Some r)
  else if String.eqb RNN_TYPE "GRU" then
    gru <- getattr "gru" (enc_gru self) ;;
    r <- RNN_forward_packed gru packed hidden ;;
    Ok (Some r)
  else Ok None.

(** Line 62: the sum of the two directions,
    [outputs[:, :, :hidden_size] + outputs[:, :, hidden_size:]]. *)
Definition sum_directions (hidden_size : nat) (outputs : Tensor3) : result Tensor3 :=
  add3 (slice_to hidden_size outputs) (slice_from hidden_size outputs).

(** [EncoderRNN.forward(self, input_seq, input_lengths, hidden=None)] *)
Definition EncoderRNN_forward (RNN_TYPE : string) (self : EncoderRNN)
    (input_seq : LongTensor2) (input_lengths : list Z) (hidden : option Hidden)
    : result (Tensor3 * Hidden) :=
  bound <- EncoderRNN_run_rnn RNN_TYPE self input_seq input_lengths hidden ;;
  match bound with
  | None => Raise (UnboundLocalError "outputs")
  | Some (outputs, hidden) =>
      let outputs := pad_packed_sequence outputs in
      outputs <- sum_directions (enc_hidden_size self) outputs ;;
      Ok (outputs, hidden)
  end.

(** *** Attn: the Luong attention layer *)

Record Attn := mkAttn {
  method : string;
  attn_hidden_size : nat;
  attn : option Linear;
  v : option Tensor1
}.

Definition attention_methods : list string := ["dot"; "general"; "concat"].

Definition str_in (s : string) (l : list string) : bool :=
  existsb (String.eqb s) l.

(** [Attn.__init__(self, method, hidden_size)] *)
Definition Attn_init (method : string) (hidden_size : nat) : result Attn :=
  if negb (str_in method attention_methods) then
    Raise (ValueError method "is not an appropriate attention method.")
  else if String.eqb method "general" then
    Ok (mkAttn method hidden_size (Some (nn_Linear "attn" hidden_size hidden_size)) None)
  else if String.eqb method "concat" then
    Ok (mkAttn method hidden_size
          (Some (nn_Linear "attn" (hidden_size * 2) hidden_size))
          (Some (mk1 hidden_size (initial_value "v" 0))))
  else
    Ok (mkAttn method hidden_size None None).

Definition dot_score (hidden encoder_output : Tensor3) : result Tensor2 :=
  p <- mul3 hidden encoder_output ;;
  Ok (sum_dim2 p).

Definition general_score (self : Attn) (hidden encoder_output : Tensor3)
    : result Tensor2 :=
  lin <- getattr "attn" (attn self) ;;
  energy <- Linear_forward3 lin encoder_output ;;
  p <- mul3 hidden energy ;;
  Ok (sum_dim2 p).

Definition concat_score (self : Attn) (hidden encoder_output : Tensor3)
    : result Tensor2 :=
  lin <- getattr "attn" (attn self) ;;
  expanded <- expand0 hidden (dim0 encoder_output) ;;
  c <- cat_dim2 expanded encoder_output ;;
  e <- Linear_forward3 lin c ;;
  let energy := tanh3 e in
  v <- getattr "v" (v self) ;;
  p <- mul3 (as3 v) energy ;;
  Ok (sum_dim2 p).

(** The [if]/[elif] chain of [Attn.forward]: the energies, or [None] when
    no branch bound [attn_energies]. *)
Definition attn_energies (self : Attn) (hidden encoder_outputs : Tensor3)
    : result (option Tensor2) :=
  if String.eqb (method self) "general" then
    e <- general_score self hidden encoder_outputs ;; Ok (Some e)
  else if String.eqb (method self) "concat" then
    e <- concat_score self hidden encoder_outputs ;; Ok (Some e)
  else if String.eqb (method self) "dot" then
    e <- dot_score hidden encoder_outputs ;; Ok (Some e)
  else Ok None.

(** [Attn.forward(self, hidden, encoder_outputs)] *)
Definition Attn_forward (self : Attn) (hidden encoder_outputs : Tensor3)
    : result Tensor3 :=
  bound <- attn_energies self hidden encoder_outputs ;;
  match bound with
  | None => Raise (UnboundLocalError "attn_energies")
  | Some attn_energies =>
      let attn_energies := t attn_energies in
      Ok (unsqueeze1 (softmax_dim1 attn_energies))
  end.

(** *** LuongAttnDecoderRNN *)

Record LuongAttnDecoderRNN := mkDecoder {
  dec_attn_model : string;
  dec_hidden_size : nat;
  dec_output_size : nat;
  dec_n_layers : nat;
  dec_dropout : R;
  dec_embedding : Embedding;
  dec_embedding_dropout : Dropout;
  dec_lstm : option RNN;
  dec_gru : option RNN;
  dec_concat : Linear;
  dec_out : Linear;
  dec_attn : Attn
}.

(** [LuongAttnDecoderRNN.__init__(self, attn_model, embedding, hidden_size,
    output_size, n_layers, dropout)] *)
Definition LuongAttnDecoderRNN_init (RNN_TYPE : string) (attn_model : string)
    (embedding : Embedding) (hidden_size output_size n_layers : nat) (dropout : R)
    : result LuongAttnDecoderRNN :=
  embedding_dropout <- nn_Dropout dropout ;;
  rnn <- (if String.eqb RNN_TYPE "LSTM" then
            lstm <- nn_RNN LSTM hidden_size hidden_size n_layers
                      (if n_layers =? 1 then 0%R else dropout) false ;;
            Ok (Some lstm, None)
          else if String.eqb RNN_TYPE "GRU" then
            gru <- nn_RNN GRU hidden_size hidden_size n_layers
                     (if n_layers =? 1 then 0%R else dropout) false ;;
            Ok (None, Some gru)
          else Ok (None, None)) ;;
  let concat := nn_Linear "concat" (hidden_size * 2) hidden_size in
  let out := nn_Linear "out" hidden_size output_size in
  attn <- Attn_init attn_model hidden_size ;;
  Ok (mkDecoder attn_model hidden_size output_size n_layers dropout embedding
        embedding_dropout (fst rnn) (snd rnn) concat out attn).

(** Lines 151-158 of [forward]: embedding, dropout and one step of the
    recurrent layer; [None] when the local [rnn_output] is left unbound. *)
Definition Decoder_run_rnn (RNN_TYPE : string) (self : LuongAttnDecoderRNN)
    (input_step : LongTensor2) (last_hidden : option Hidden)
    : result (option (Tensor3 * Hidden)) :=
  embedded <- Embedding_forward (dec_embedding self) input_step ;;
  let embedded := Dropout_forward (dec_embedding_dropout self) embedded in
  if String.eqb RNN_TYPE "LSTM" then
    lstm <- getattr "lstm" (dec_lstm self) ;;
    r <- RNN_forward lstm embedded last_hidden ;;
    Ok (Some r)
  else if String.eqb RNN_TYPE "GRU" then
    gru <- getattr "gru" (dec_gru self) ;;
    r <- RNN_forward gru embedded last_hidden ;;
    Ok (Some r)
  else Ok None.

(** Lines 163-171: from the attention weights to the word distribution. *)
Definition Decoder_output (self : LuongAttnDecoderRNN)
    (rnn_output attn_weights encoder_outputs : Tensor3) : result Tensor2 :=
  context <- bmm attn_weights (transpose01 encoder_outputs) ;;
  match squeeze0 rnn_output, squeeze1 context with
  | inl rnn_output, inl context =>
      concat_input <- cat_dim1 rnn_output context ;;
      c <- Linear_forward2 (dec_concat self) concat_input ;;
      let concat_output := tanh2 c in
      output <- Linear_forward2 (dec_out self) concat_output ;;
      Ok (softmax_dim1 output)
  | _, _ => torch_raise ShapeMismatch
  end.

(** [LuongAttnDecoderRNN.forward(self, input_step, last_hidden,
    encoder_outputs)] *)
Definition LuongAttnDecoderRNN_forward (RNN_TYPE : string)
    (self : LuongAttnDecoderRNN) (input_step : LongTensor2)
    (last_hidden : option Hidden) (encoder_outputs : Tensor3)
    : result (Tensor2 * Hidden) :=
  bound <- Decoder_run_rnn RNN_TYPE self input_step last_hidden ;;
  match bound with
  | None => Raise (UnboundLocalError "rnn_output")
  | Some (rnn_output, hidden) =>
      attn_weights <- Attn_forward (dec_attn self) rnn_output encoder_outputs ;;
      output <- Decoder_output self rnn_output attn_weights encoder_outputs ;;
      Ok (output, hidden)
  end.

End Model.

(** ** Import-time code: building the models and their optimizers *)

Inductive device := cpu | cuda.

(** The names imported from the configuration module (not part of
    [model.py]); strings and numbers as the configuration gives them. *)
Record Config := mkConfig {
  DEVICE : device;
  LEARNING_RATE : R;
  DECODER_LEARNING_RATIO : R;
  ATTN_MODEL : string;
  HIDDEN_SIZE : nat;
  ENCODER_N_LAYERS : nat;
  DECODER_N_LAYERS : nat;
  DROPOUT : R;
  RNN_TYPE : string
}.

(** A module together with the device its parameters live on; the
    framework builds modules on the CPU. *)
Record Placed (A : Type) := mkPlaced { obj : A; on : device }.
Arguments mkPlaced {A} obj on.
Arguments obj {A} p.
Arguments on {A} p.

Section ImportTime.
Context {fw : Framework}.

(** [m.to(dev)]: the framework moves the parameters, and refuses a CUDA
    device when there is none. *)
Definition nn_Module_to {A} (cuda_available : bool) (m : Placed A) (dev : device)
    : result (Placed A) :=
  match dev with
  | cpu => Ok (mkPlaced (obj m) cpu)
  | cuda => if cuda_available then Ok (mkPlaced (obj m) cuda)
            else torch_raise CudaUnavailable
  end.

(** [m.parameters()] *)
Inductive parameters :=
| EncoderParameters (m : EncoderRNN)
| DecoderParameters (m : LuongAttnDecoderRNN).

(** A value of an optimizer's per-parameter state: a tensor (on some
    device) or anything else. *)
Inductive state_value :=
| StateTensor (on : device)
| StateOther.

Definition param_state := list (string * state_value).

Record Optimizer := mkOptimizer {
  opt_class : string;
  opt_params : parameters;
  opt_lr : R;
  opt_weight_decay : R;
  opt_state : list (nat * param_state)
}.

(** [optim.Adam(params, lr=lr, weight_decay=weight_decay)]; the state of a
    new optimizer is empty (it is filled by the first [step]). *)
Definition optim_Adam (params : parameters) (lr weight_decay : R) : result Optimizer :=
  if ctor_ok (CallAdam lr weight_decay) then
    Ok (mkOptimizer "Adam" params lr weight_decay [])
  else torch_raise CtorRejected.

(** [v.cuda()] *)
Definition tensor_cuda (cuda_available : bool) : result state_value :=
  if cuda_available then Ok (StateTensor cuda) else torch_raise CudaUnavailable.

(** for k, v in state.items(): if isinstance(v, torch.Tensor): state[k] = v.cuda() *)
Fixpoint state_items_cuda (cuda_available : bool) (state : param_state)
    : result param_state :=
  match state with
  | [] => Ok []
  | (k, v) :: rest =>
      v' <- match v with
            | StateTensor _ => tensor_cuda cuda_available
            | StateOther => Ok v
            end ;;
      rest' <- state_items_cuda cuda_available rest ;;
      Ok ((k, v') :: rest')
  end.

(** for state in optimizer.state.values(): ... *)
Fixpoint state_values_cuda (cuda_available : bool) (st : list (nat * param_state))
    : result (list (nat * param_state)) :=
  match st with
  | [] => Ok []
  | (p, state) :: rest =>
      state' <- state_items_cuda cuda_available state ;;
      rest' <- state_values_cuda cuda_available rest ;;
      Ok ((p, state') :: rest')
  end.

Definition optimizer_state_cuda (cuda_available : bool) (o : Optimizer)
    : result Optimizer :=
  st <- state_values_cuda cuda_available (opt_state o) ;;
  Ok (mkOptimizer (opt_class o) (opt_params o) (opt_lr o) (opt_weight_decay o) st).

(** [p.numel()] summed over the parameters of a layer. *)
Definition Embedding_numel (e : Embedding) : nat := num_embeddings e * embedding_dim e.
Definition Linear_numel (l : Linear) : nat :=
  out_features l * in_features l + out_features l.
Definition RNN_numel (l : RNN) : nat :=
  let gate := (match mode l with LSTM => 4 | GRU => 3 end) * rnn_hidden_size l in
  let layer (input : nat) := gate * input + gate * rnn_hidden_size l + 2 * gate in
  match num_layers l with
  | O => 0
  | S k => num_directions l
           * (layer (input_size l) + k * layer (rnn_hidden_size l * num_directions l))
  end.
Definition option_numel {A} (numel : A -> nat) (a : option A) : nat :=
  match a with Some x => numel x | None => 0 end.
Definition Attn_numel (a : Attn) : nat :=
  option_numel Linear_numel (attn a) + option_numel len1 (v a).
Definition EncoderRNN_numel (m : EncoderRNN) : nat :=
  Embedding_numel (enc_embedding m)
  + option_numel RNN_numel (enc_lstm m) + option_numel RNN_numel (enc_gru m).
Definition LuongAttnDecoderRNN_numel (m : LuongAttnDecoderRNN) : nat :=
  Embedding_numel (dec_embedding m)
  + option_numel RNN_numel (dec_lstm m) + option_numel RNN_numel (dec_gru m)
  + Linear_numel (dec_concat m) + Linear_numel (dec_out m) + Attn_numel (dec_attn m).

Inductive printed := OutStr (s : string) | OutNat (n : nat).

(** The names the module defines, and what it printed. *)
Record Globals := mkGlobals {
  embedding : Embedding;
  encoder : Placed EncoderRNN;
  decoder : Placed LuongAttnDecoderRNN;
  encoder_optimizer : Optimizer;
  decoder_optimizer : Optimizer;
  stdout : list printed
}.

(** Lines 179-225, run when the module is imported.  [voc_num_words] is
    [voc.num_words] of the dataset module; [cuda_available] says whether
    the machine has a CUDA device. *)
Definition import_module (cfg : Config) (voc_num_words : nat) (cuda_available : bool)
    : result Globals :=
  let embedding := nn_Embedding voc_num_words (HIDDEN_SIZE cfg) in
  encoder <- EncoderRNN_init (RNN_TYPE cfg) (HIDDEN_SIZE cfg) embedding
               (ENCODER_N_LAYERS cfg) (DROPOUT cfg) ;;
  decoder <- LuongAttnDecoderRNN_init (RNN_TYPE cfg) (ATTN_MODEL cfg) embedding
               (HIDDEN_SIZE cfg) voc_num_words (DECODER_N_LAYERS cfg) (DROPOUT cfg) ;;
  encoder <- nn_Module_to cuda_available (mkPlaced encoder cpu) (DEVICE cfg) ;;
  decoder <- nn_Module_to cuda_available (mkPlaced decoder cpu) (DEVICE cfg) ;;
  encoder_optimizer <- optim_Adam (EncoderParameters (obj encoder))
                         (LEARNING_RATE cfg) 0%R ;;
  decoder_optimizer <- optim_Adam (DecoderParameters (obj decoder))
                         (LEARNING_RATE cfg * DECODER_LEARNING_RATIO cfg)%R 1e-5%R ;;
  encoder_optimizer <- optimizer_state_cuda cuda_available encoder_optimizer ;;
  decoder_optimizer <- optimizer_state_cuda cuda_available decoder_optimizer ;;
  Ok (mkGlobals embedding encoder decoder encoder_optimizer decoder_optimizer
        [ OutStr "Building encoder and decoder ...";
          OutStr "Models built and ready to go!";
          OutStr "Building optimizers ...";
          OutStr EmptyString;
          OutStr "Nubmer of parameters for Encoder:";
          OutNat (EncoderRNN_numel (obj encoder));
          OutStr "Nubmer of parameters for Decoder:";
          OutNat (LuongAttnDecoderRNN_numel (obj decoder));
          OutStr EmptyString ]).

End ImportTime.

(** ** A small framework, for running the model on concrete inputs

    Every hyper-parameter is accepted, parameters start at 1, dropout is the
    identity (evaluation mode) and the recurrent kernels write k+1 into
    feature k of every row. *)

Definition toy_hidden (l : RNN) (batch : nat) (hx : option Hidden) : Hidden :=
  match hx with
  | Some h => h
  | None => HTensor (mk3 (num_layers l * num_directions l) batch (rnn_hidden_size l)
                        (fun _ _ _ => 0%R))
  end.

Definition toy_framework : Framework := {|
  ctor_ok := fun _ => true;
  initial_value := fun _ _ _ => 1%R;
  rnn_packed_kernel := fun l x bs hx =>
    (mk2 (rows x) (num_directions l * rnn_hidden_size l) (fun _ k => INR (S k)),
     toy_hidden l (hd 0 bs) hx);
  rnn_kernel := fun l x hx =>
    (mk3 (dim0 x) (dim1 x) (num_directions l * rnn_hidden_size l)
         (fun _ _ k => INR (S k)),
     toy_hidden l (dim1 x) hx);
  dropout_kernel := fun _ x => x;
  rnn_packed_kernel_shape := fun _ _ _ _ => eq_refl;
  rnn_kernel_shape := fun _ _ _ => eq_refl;
  dropout_kernel_shape := fun _ _ => eq_refl
|}.





(** ** Vocabulary of the statements *)

(** A result that is not a [ValueError]. *)
Definition no_value_error {A} (r : result A) : Prop :=
  match r with
  | Ok _ => True
  | Raise e => is_value_error e = false
  end.


(** The input of the concat method's linear map at position (s, b): the
    hidden state followed by the encoder output. *)
Definition concat_features (hidden enc : Tensor3) (H s b : nat) (i : nat) : R :=
  if i <? H then at3 hidden 0 b i else at3 enc s b (i - H).

(** The context vector of batch element [b]: the encoder outputs weighted
    by the attention weights, summed over the T time steps. *)
Definition attention_context (w enc : Tensor3) (T b k : nat) : R :=
  sum_n T (fun s => at3 w b 0 s * at3 enc s b k)%R.

(** The score of word [o] for batch element [b] (Luong eq. 5 and 6, before
    the softmax). *)
Definition luong_logit (concat out : Linear) (rnn_output w enc : Tensor3)
    (H T b o : nat) : R :=
  affine out
    (fun j => tanh (affine concat
                      (fun i => if i <? H then at3 rnn_output 0 b i
                                else attention_context w enc T b (i - H)) j)) o.

(** ** Concrete inputs *)

Definition example_embedding : Embedding := nn_Embedding (fw := toy_framework) 3 2.

(** A batch of two sequences of lengths 2 and 1, padded to length 2. *)
Definition example_batch : LongTensor2 := long2_of_list 2 [[0; 1]; [2; 0]]%Z.
Definition example_lengths : list Z := [2; 1]%Z.

Definition example_encoder : EncoderRNN :=
  mkEncoderRNN 1 2 example_embedding None (Some (mkRNN GRU 2 2 1 0%R true)).

(** A hidden state of shape (1, 1, 2) and encoder outputs of shape (2, 1, 2). *)
Definition example_hidden : Tensor3 := tensor3_of_list 1 2 [[[1; 2]]]%R.
Definition example_encoder_outputs : Tensor3 :=
  tensor3_of_list 1 2 [[[3; 4]]; [[5; 6]]]%R.

Definition example_step : LongTensor2 := long2_of_list 1 [[1]]%Z.

Definition example_decoder : LuongAttnDecoderRNN :=
  mkDecoder "dot" 2 3 1 (1 / 10)%R example_embedding (mkDropout (1 / 10)%R)
    None (Some (mkRNN GRU 2 2 1 0%R false))
    (nn_Linear (fw := toy_framework) "concat" (2 * 2) 2)
    (nn_Linear (fw := toy_framework) "out" 2 3)
    (mkAttn "dot" 2 None None).

Definition example_config (dev : device) : Config :=
  mkConfig dev (1 / 1000)%R 5%R "dot" 2 1 1 (1 / 10)%R "GRU".


Definition example_concat_attn : Attn :=
  mkAttn "concat" 2 (Some (nn_Linear (fw := toy_framework) "attn" (2 * 2) 2))
    (Some (mk1 2 (fun _ => 1%R))).

(** ** Further vocabulary and inputs *)

(** A hidden state for one sequence, shape (1, 1, 2), against encoder
    outputs for a batch of two, shape (1, 2, 2). *)
Definition example_batch_outputs : Tensor3 :=
  tensor3_of_list 2 2 [[[3; 4]; [5; 6]]]%R.

(** What [v.cuda()] leaves in the place of a state value, when it is
    reached and succeeds. *)
Definition value_on_cuda (v : state_value) : state_value :=
  match v with
  | StateTensor _ => StateTensor cuda
  | StateOther => StateOther
  end.

Definition state_on_cuda (st : list (nat * param_state)) : list (nat * param_state) :=
  map (fun ps => (fst ps, map (fun kv => (fst kv, value_on_cuda (snd kv))) (snd ps))) st.

Definition is_tensor (v : state_value) : bool :=
  match v with StateTensor _ => true | StateOther => false end.

(** Whether some parameter's state holds a tensor. *)
Definition holds_tensor (st : list (nat * param_state)) : bool :=
  existsb (fun ps => existsb (fun kv => is_tensor (snd kv)) (snd ps)) st.

(** An optimizer after some steps: the state of parameter 0 holds the step
    count and two moment tensors on the CPU. *)
Definition example_stepped_state : list (nat * param_state) :=
  [(0, [("step", StateOther); ("exp_avg", StateTensor cpu);
        ("exp_avg_sq", StateTensor cpu)])].

(** A hidden state that no layer of the examples accepts: shape (1, 1, 1). *)
Definition example_bad_hidden : option Hidden :=
  Some (HTensor (mk3 1 1 1 (fun _ _ _ => 0%R))).


(** An input whose padded position (1, 1) holds a word index outside a
    vocabulary of 3 words. *)
Definition example_bad_padding : LongTensor2 := long2_of_list 2 [[0; 1]; [2; 7]]%Z.

(** Encoder outputs of shape (1, 1, 2): one time step; and of shape
    (2, 1, 2) with a zero second step. *)
Definition example_single_step : Tensor3 := tensor3_of_list 1 2 [[[3; 4]]]%R.
Definition example_padded_outputs : Tensor3 :=
  tensor3_of_list 1 2 [[[3; 4]]; [[0; 0]]]%R.

(** * Properties *)

(** ** Sums *)

Lemma sum_n_ext (n : nat) (f g : nat -> R) :
  (forall k, k < n -> f k = g k) -> sum_n n f = sum_n n g.
Proof.
  induction n as [|n IH]; intros Hfg; simpl.
  - reflexivity.
  - rewrite IH by (intros k Hk; apply Hfg; lia).
    rewrite (Hfg n) by lia. reflexivity.
Qed.

(** ** Broadcasting *)

Lemma broadcast_dim_same (n : nat) : broadcast_dim n n = Some n.
Proof. unfold broadcast_dim. rewrite Nat.eqb_refl. reflexivity. Qed.

Lemma broadcast_dim_one (n : nat) : broadcast_dim 1 n = Some n.
Proof.
  unfold broadcast_dim. destruct (1 =? n) eqn:E.
  - apply Nat.eqb_eq in E. congruence.
  - reflexivity.
Qed.

Lemma bidx_lt (d i : nat) : i < d -> bidx d i = i.
Proof.
  unfold bidx. intros Hi. destruct (d =? 1) eqn:E.
  - apply Nat.eqb_eq in E. lia.
  - reflexivity.
Qed.

Lemma bidx_one (i : nat) : bidx 1 i = 0.
Proof. reflexivity. Qed.

(** ** The attention methods *)

Lemma str_in_In (s : string) (l : list string) : str_in s l = true <-> In s l.
Proof.
  unfold str_in. rewrite existsb_exists. split.
  - intros [x [Hin Heq]]. apply String.eqb_eq in Heq. subst. assumption.
  - intros Hin. exists s. split; [assumption | apply String.eqb_refl].
Qed.

Lemma attention_methods_spec (m : string) :
  str_in m attention_methods = true <-> m = "dot" \/ m = "general" \/ m = "concat".
Proof.
  rewrite str_in_In. unfold attention_methods. simpl. intuition congruence.
Qed.

Section AttnFacts.
Context {fw : Framework}.

Lemma Attn_init_raises (m : string) (H : nat) :
  str_in m attention_methods = false ->
  Attn_init m H = Raise (ValueError m "is not an appropriate attention method.").
Proof. intros Hm. unfold Attn_init. rewrite Hm. reflexivity. Qed.

Lemma Attn_init_dot (H : nat) :
  Attn_init "dot" H = Ok (mkAttn "dot" H None None).
Proof. reflexivity. Qed.

Lemma Attn_init_general (H : nat) :
  Attn_init "general" H
  = Ok (mkAttn "general" H (Some (nn_Linear "attn" H H)) None).
Proof. reflexivity. Qed.

Lemma Attn_init_concat (H : nat) :
  Attn_init "concat" H
  = Ok (mkAttn "concat" H (Some (nn_Linear "attn" (H * 2) H))
          (Some (mk1 H (initial_value "v" 0)))).
Proof. reflexivity. Qed.

Lemma Attn_init_inv (m : string) (H : nat) (self : Attn) :
  Attn_init m H = Ok self ->
  (m = "dot" /\ self = mkAttn "dot" H None None)
  \/ (m = "general"
      /\ self = mkAttn "general" H (Some (nn_Linear "attn" H H)) None)
  \/ (m = "concat"
      /\ self = mkAttn "concat" H (Some (nn_Linear "attn" (H * 2) H))
                  (Some (mk1 H (initial_value "v" 0)))).
Proof.
  intros Hinit.
  destruct (str_in m attention_methods) eqn:Hm.
  - apply attention_methods_spec in Hm.
    destruct Hm as [-> | [-> | ->]].
    + left. rewrite Attn_init_dot in Hinit. split; congruence.
    + right; left. rewrite Attn_init_general in Hinit. split; congruence.
    + right; right. rewrite Attn_init_concat in Hinit. split; congruence.
  - rewrite (Attn_init_raises _ _ Hm) in Hinit. discriminate.
Qed.

Lemma affine_ext (l : Linear) (x y : nat -> R) (o : nat) :
  (forall k, k < in_features l -> x k = y k) -> affine l x o = affine l y o.
Proof.
  intros Hxy. unfold affine. f_equal. apply sum_n_ext.
  intros k Hk. rewrite (Hxy k Hk). reflexivity.
Qed.

(** A (1, B, H) tensor multiplied with a (T, B, H) tensor. *)
Lemma mul3_row (a b : Tensor3) (T B H : nat) :
  shape3 a = (1, B, H) -> shape3 b = (T, B, H) ->
  exists p, mul3 a b = Ok p /\ shape3 p = (T, B, H)
    /\ forall s j k, s < T -> j < B -> k < H ->
         at3 p s j k = (at3 a 0 j k * at3 b s j k)%R.
Proof.
  destruct a as [a0 a1 a2 fa], b as [b0 b1 b2 fb]. unfold shape3. simpl.
  intros Ha Hb. injection Ha as -> -> ->. injection Hb as -> -> ->.
  unfold mul3, broadcast3. simpl.
  rewrite broadcast_dim_one, !broadcast_dim_same.
  eexists. split; [reflexivity|]. split; [reflexivity|].
  intros s j k Hs Hj Hk. simpl.
  rewrite !(bidx_lt B j), !(bidx_lt H k), (bidx_lt T s) by assumption.
  reflexivity.
Qed.

(** A 1-D tensor of H entries multiplied with a (T, B, H) tensor. *)
Lemma mul3_vector (u : Tensor1) (b : Tensor3) (T B H : nat) :
  len1 u = H -> shape3 b = (T, B, H) ->
  exists p, mul3 (as3 u) b = Ok p /\ shape3 p = (T, B, H)
    /\ forall s j k, s < T -> j < B -> k < H ->
         at3 p s j k = (at1 u k * at3 b s j k)%R.
Proof.
  destruct u as [n fu], b as [b0 b1 b2 fb]. unfold shape3. simpl.
  intros -> Hb. injection Hb as -> -> ->.
  unfold mul3, broadcast3, as3. simpl.
  rewrite !broadcast_dim_one, broadcast_dim_same.
  eexists. split; [reflexivity|]. split; [reflexivity|].
  intros s j k Hs Hj Hk. simpl.
  rewrite (bidx_lt B j), !(bidx_lt H k), (bidx_lt T s) by assumption.
  reflexivity.
Qed.

Lemma Linear_forward3_ok (l : Linear) (x : Tensor3) :
  dim2 x = in_features l ->
  Linear_forward3 l x
  = Ok (mk3 (dim0 x) (dim1 x) (out_features l) (fun i j o => affine l (at3 x i j) o)).
Proof. intros E. unfold Linear_forward3. rewrite E, Nat.eqb_refl. reflexivity. Qed.

Lemma Linear_forward2_ok (l : Linear) (x : Tensor2) :
  cols x = in_features l ->
  Linear_forward2 l x
  = Ok (mk2 (rows x) (out_features l) (fun i o => affine l (at2 x i) o)).
Proof. intros E. unfold Linear_forward2. rewrite E, Nat.eqb_refl. reflexivity. Qed.

Lemma expand0_row (x : Tensor3) (T B H : nat) :
  shape3 x = (1, B, H) ->
  exists y, expand0 x T = Ok y /\ shape3 y = (T, B, H)
    /\ forall s j k, s < T -> at3 y s j k = at3 x 0 j k.
Proof.
  destruct x as [x0 x1 x2 fx]. unfold shape3. simpl.
  intros Hx. injection Hx as -> -> ->. unfold expand0. cbn [dim0 dim1 dim2 at3].
  destruct (1 =? T) eqn:E.
  - apply Nat.eqb_eq in E. subst T.
    eexists. split; [reflexivity|]. split; [reflexivity|].
    intros s j k Hs. simpl. replace s with 0 by lia. reflexivity.
  - eexists. split; [reflexivity|]. split; [reflexivity|].
    intros s j k Hs. reflexivity.
Qed.

Lemma dot_score_spec (hidden enc : Tensor3) (T B H : nat) :
  shape3 hidden = (1, B, H) -> shape3 enc = (T, B, H) ->
  exists e, dot_score hidden enc = Ok e /\ shape2 e = (T, B)
    /\ forall s b, s < T -> b < B ->
         at2 e s b = sum_n H (fun k => at3 hidden 0 b k * at3 enc s b k)%R.
Proof.
  intros Hh He.
  destruct (mul3_row hidden enc T B H Hh He) as [p [Hp [Hsh Hat]]].
  unfold dot_score. rewrite Hp. simpl.
  injection Hsh as E0 E1 E2.
  eexists. split; [reflexivity|]. unfold shape2. simpl. split; [congruence|].
  intros s b Hs Hb. rewrite E2. apply sum_n_ext. intros k Hk. apply Hat; assumption.
Qed.

Lemma general_score_spec (lin : Linear) (self : Attn) (hidden enc : Tensor3)
    (T B H : nat) :
  attn self = Some lin -> in_features lin = H -> out_features lin = H ->
  shape3 hidden = (1, B, H) -> shape3 enc = (T, B, H) ->
  exists e, general_score self hidden enc = Ok e /\ shape2 e = (T, B)
    /\ forall s b, s < T -> b < B ->
         at2 e s b
         = sum_n H (fun k => at3 hidden 0 b k * affine lin (at3 enc s b) k)%R.
Proof.
  intros Hattn Hin Hout Hh He.
  assert (Hsz := He). unfold shape3 in Hsz. injection Hsz as E0 E1 E2.
  unfold general_score. rewrite Hattn. simpl.
  rewrite Linear_forward3_ok by congruence. simpl.
  match goal with |- context [mul3 hidden ?y] =>
    destruct (mul3_row hidden y T B H Hh) as [p [Hp [Hsh Hat]]]
  end.
  { unfold shape3. simpl. congruence. }
  rewrite Hp. simpl. injection Hsh as P0 P1 P2.
  eexists. split; [reflexivity|]. unfold shape2. simpl. split; [congruence|].
  intros s b Hs Hb. rewrite P2. apply sum_n_ext. intros k Hk.
  rewrite Hat by assumption. reflexivity.
Qed.

Lemma concat_score_spec (lin : Linear) (u : Tensor1) (self : Attn)
    (hidden enc : Tensor3) (T B H : nat) :
  attn self = Some lin -> v self = Some u ->
  in_features lin = H * 2 -> out_features lin = H -> len1 u = H ->
  shape3 hidden = (1, B, H) -> shape3 enc = (T, B, H) ->
  exists e, concat_score self hidden enc = Ok e /\ shape2 e = (T, B)
    /\ forall s b, s < T -> b < B ->
         at2 e s b
         = sum_n H (fun k =>
             at1 u k * tanh (affine lin (concat_features hidden enc H s b) k))%R.
Proof.
  intros Hattn Hv Hin Hout Hlen Hh He.
  assert (Hsz := He). unfold shape3 in Hsz. injection Hsz as E0 E1 E2.
  unfold concat_score. rewrite Hattn. simpl. rewrite E0.
  destruct (expand0_row hidden T B H Hh) as [x [Hx [Hxs Hxat]]].
  rewrite Hx. simpl. injection Hxs as X0 X1 X2.
  unfold cat_dim2. rewrite X0, X1, E0, E1, !Nat.eqb_refl. simpl.
  rewrite Linear_forward3_ok by (simpl; lia). simpl.
  rewrite Hv. simpl.
  match goal with |- context [mul3 (as3 u) ?y] =>
    destruct (mul3_vector u y T B H Hlen) as [p [Hp [Hsh Hat]]]
  end.
  { unfold shape3. simpl. congruence. }
  rewrite Hp. simpl. injection Hsh as P0 P1 P2.
  eexists. split; [reflexivity|]. unfold shape2. simpl. split; [congruence|].
  intros s b Hs Hb. rewrite P2. apply sum_n_ext. intros k Hk.
  rewrite Hat by assumption. simpl. f_equal. f_equal.
  apply affine_ext. intros i Hi. unfold concat_features. rewrite X2.
  destruct (i <? H); [apply Hxat; assumption | reflexivity].
Qed.

End AttnFacts.

(** ** Which exceptions a call can raise *)

Lemma no_value_error_bind {A B} (r : result A) (k : A -> result B) :
  no_value_error r -> (forall a, no_value_error (k a)) -> no_value_error (bind r k).
Proof. destruct r as [a|e]; simpl; intros Hr Hk; [apply Hk | exact Hr]. Qed.

Lemma no_value_error_raise {A} (r : result A) (e : exn) :
  no_value_error r -> r = Raise e -> is_value_error e = false.
Proof. intros Hr ->. exact Hr. Qed.

Ltac nve_step :=
  match goal with
  | |- no_value_error (bind _ _) => apply no_value_error_bind
  | |- no_value_error (if ?c then _ else _) => destruct c
  | |- no_value_error (match ?x with _ => _ end) => destruct x
  | |- no_value_error (let '(_, _) := ?x in _) => destruct x
  | |- no_value_error (Ok _) => exact I
  | |- no_value_error (Raise _) => reflexivity
  | |- no_value_error (torch_raise _) => reflexivity
  | |- forall _, _ => intro
  end.
Ltac nve := repeat nve_step.

Section Exceptions.
Context {fw : Framework}.



Lemma nve_Embedding_forward (e : Embedding) (x : LongTensor2) :
  no_value_error (Embedding_forward e x).
Proof. unfold Embedding_forward. nve. Qed.

Lemma nve_pack_padded_sequence (x : Tensor3) (lengths : list Z) :
  no_value_error (pack_padded_sequence x lengths).
Proof. unfold pack_padded_sequence. nve. Qed.














End Exceptions.

(** ** Attention: validation, scores and weights *)

Section AttnClaims.
Context {fw : Framework}.

(** The energies of every valid method on a (1, B, H) hidden state and
    (T, B, H) encoder outputs, and what [Attn.forward] returns from them. *)
Lemma Attn_forward_ok (m : string) (H T B : nat) (self : Attn)
    (hidden enc : Tensor3) :
  Attn_init m H = Ok self ->
  shape3 hidden = (1, B, H) -> shape3 enc = (T, B, H) ->
  exists e, attn_energies self hidden enc = Ok (Some e) /\ shape2 e = (T, B)
    /\ Attn_forward self hidden enc = Ok (unsqueeze1 (softmax_dim1 (t e))).
Proof.
  intros Hinit Hh He.
  destruct (Attn_init_inv _ _ _ Hinit) as [[-> ->] | [[-> ->] | [-> ->]]].
  - destruct (dot_score_spec hidden enc T B H Hh He) as [e [Hs [Hsh _]]].
    exists e. unfold Attn_forward, attn_energies. simpl. rewrite Hs. simpl. auto.
  - destruct (general_score_spec (nn_Linear "attn" H H)
                (mkAttn "general" H (Some (nn_Linear "attn" H H)) None) hidden enc T B H
                eq_refl eq_refl eq_refl Hh He) as [e [Hs [Hsh _]]].
    exists e. unfold Attn_forward, attn_energies. simpl. rewrite Hs. simpl. auto.
  - destruct (concat_score_spec (nn_Linear "attn" (H * 2) H)
                (mk1 H (initial_value "v" 0))
                (mkAttn "concat" H (Some (nn_Linear "attn" (H * 2) H))
                   (Some (mk1 H (initial_value "v" 0)))) hidden enc T B H
                eq_refl eq_refl eq_refl eq_refl eq_refl Hh He) as [e [Hs [Hsh _]]].
    exists e. unfold Attn_forward, attn_energies. simpl. rewrite Hs. simpl. auto.
Qed.

(** The entries of what [Attn.forward] builds from energies [e] of shape
    (T, B). *)
Lemma softmax_weights_entries (e : Tensor2) (T B : nat) :
  shape2 e = (T, B) ->
  shape3 (unsqueeze1 (softmax_dim1 (t e))) = (B, 1, T)
  /\ forall b s,
       at3 (unsqueeze1 (softmax_dim1 (t e))) b 0 s
       = (exp (at2 e s b) / sum_n T (fun s' => exp (at2 e s' b)))%R.
Proof.
  intros Hsh. injection Hsh as Hr Hc. split.
  - unfold shape3. simpl. congruence.
  - intros b s. simpl. rewrite Hr. reflexivity.
Qed.


(** C3.  On a (1, B, H) hidden state and (T, B, H) encoder outputs:
    with method "dot" the energy at (time s, batch b) is the sum over the
    features k of hidden[0,b,k] * encoder_output[s,b,k]; with method
    "general" it is the same sum with the encoder output first sent through
    the layer's linear map; and what [Attn.forward] returns is the (B, 1, T)
    tensor whose entry (b, 0, s) is exp of the energy at (s, b) divided by
    the sum over the time steps s' of exp of the energy at (s', b): the
    energies transposed and softmax-normalized along the time steps. *)
Theorem Attn_forward_dot_general (T B H : nat) (hidden enc : Tensor3) :
  shape3 hidden = (1, B, H) -> shape3 enc = (T, B, H) ->
  (forall self, method self = "dot" ->
     exists e w, dot_score hidden enc = Ok e /\ shape2 e = (T, B)
       /\ (forall s b, s < T -> b < B ->
             at2 e s b = sum_n H (fun k => at3 hidden 0 b k * at3 enc s b k)%R)
       /\ Attn_forward self hidden enc = Ok w /\ shape3 w = (B, 1, T)
       /\ (forall b s, b < B -> s < T ->
             at3 w b 0 s
             = (exp (sum_n H (fun k => at3 hidden 0 b k * at3 enc s b k))
                / sum_n T (fun s' =>
                    exp (sum_n H (fun k => at3 hidden 0 b k * at3 enc s' b k))))%R))
  /\ (forall self, Attn_init "general" H = Ok self ->
     exists lin e w, attn self = Some lin
       /\ general_score self hidden enc = Ok e /\ shape2 e = (T, B)
       /\ (forall s b, s < T -> b < B ->
             at2 e s b
             = sum_n H (fun k => at3 hidden 0 b k * affine lin (at3 enc s b) k)%R)
       /\ Attn_forward self hidden enc = Ok w /\ shape3 w = (B, 1, T)
       /\ (forall b s, b < B -> s < T ->
             at3 w b 0 s
             = (exp (sum_n H (fun k =>
                       at3 hidden 0 b k * affine lin (at3 enc s b) k))
                / sum_n T (fun s' =>
                    exp (sum_n H (fun k =>
                           at3 hidden 0 b k * affine lin (at3 enc s' b) k))))%R)).
Proof.
  intros Hh He.
  assert (Hentries : forall (e : Tensor2) (E : nat -> nat -> R),
            shape2 e = (T, B) ->
            (forall s b, s < T -> b < B -> at2 e s b = E s b) ->
            forall b s, b < B -> s < T ->
              at3 (unsqueeze1 (softmax_dim1 (t e))) b 0 s
              = (exp (E s b) / sum_n T (fun s' => exp (E s' b)))%R).
  { intros e E Hsh Hat b s Hb Hs.
    destruct (softmax_weights_entries e T B Hsh) as [_ Hw].
    rewrite Hw, (Hat s b Hs Hb).
    rewrite (sum_n_ext T (fun s' => exp (at2 e s' b)) (fun s' => exp (E s' b)))
      by (intros s' Hs'; rewrite (Hat s' b Hs' Hb); reflexivity).
    reflexivity. }
  split.
  - intros self Hm.
    destruct (dot_score_spec hidden enc T B H Hh He) as [e [Hs [Hsh Hat]]].
    exists e, (unsqueeze1 (softmax_dim1 (t e))).
    split; [exact Hs|]. split; [exact Hsh|]. split; [exact Hat|].
    split; [|split].
    + unfold Attn_forward, attn_energies. rewrite Hm. simpl. rewrite Hs. reflexivity.
    + apply (softmax_weights_entries e T B Hsh).
    + apply (Hentries e _ Hsh Hat).
  - intros self Hinit. rewrite Attn_init_general in Hinit. injection Hinit as <-.
    destruct (general_score_spec (nn_Linear "attn" H H)
                (mkAttn "general" H (Some (nn_Linear "attn" H H)) None) hidden enc T B H
                eq_refl eq_refl eq_refl Hh He) as [e [Hs [Hsh Hat]]].
    exists (nn_Linear "attn" H H), e, (unsqueeze1 (softmax_dim1 (t e))).
    split; [reflexivity|]. split; [exact Hs|]. split; [exact Hsh|].
    split; [exact Hat|]. split; [|split].
    + unfold Attn_forward, attn_energies. simpl. rewrite Hs. reflexivity.
    + apply (softmax_weights_entries e T B Hsh).
    + apply (Hentries e _ Hsh Hat).
Qed.

(** C7.  With method "concat", on a (1, B, H) hidden state and (T, B, H)
    encoder outputs, the score at (time s, batch b) is the sum over the
    features k of v[k] * tanh(W [hidden[0,b,:] ; encoder_output[s,b,:]] + bias)[k]:
    the hidden state is repeated at every time step and concatenated with
    the encoder output along the features. *)
Theorem concat_score_energy (T B H : nat) (self : Attn) (hidden enc : Tensor3) :
  Attn_init "concat" H = Ok self ->
  shape3 hidden = (1, B, H) -> shape3 enc = (T, B, H) ->
  exists lin u e, attn self = Some lin /\ v self = Some u
    /\ concat_score self hidden enc = Ok e /\ shape2 e = (T, B)
    /\ (forall s b, s < T -> b < B ->
          at2 e s b
          = sum_n H (fun k =>
              at1 u k * tanh (affine lin (concat_features hidden enc H s b) k))%R)
    /\ attn_energies self hidden enc = Ok (Some e).
Proof.
  intros Hinit Hh He. rewrite Attn_init_concat in Hinit. injection Hinit as <-.
  destruct (concat_score_spec (nn_Linear "attn" (H * 2) H)
                (mk1 H (initial_value "v" 0))
                (mkAttn "concat" H (Some (nn_Linear "attn" (H * 2) H))
                   (Some (mk1 H (initial_value "v" 0)))) hidden enc T B H
              eq_refl eq_refl eq_refl eq_refl eq_refl Hh He) as [e [Hs [Hsh Hat]]].
  eexists _, _, e. repeat split; try eassumption; try reflexivity.
  unfold attn_energies. simpl. rewrite Hs. reflexivity.
Qed.


End AttnClaims.

(** ** Packing *)

Lemma bind_Ok_inv {A B} (r : result A) (k : A -> result B) (b : B) :
  bind r k = Ok b -> exists a, r = Ok a /\ k a = Ok b.
Proof. destruct r as [a|e]; simpl; intros Hb; [eauto | discriminate]. Qed.

Lemma sorted_decreasing_cons (a : Z) (l : list Z) :
  sorted_decreasing (a :: l) = true ->
  sorted_decreasing l = true /\ (forall x, In x l -> (x <= a)%Z).
Proof.
  revert a. induction l as [|b l IH]; intros a Hs.
  - split; [reflexivity | intros x []].
  - cbn [sorted_decreasing] in Hs. apply andb_true_iff in Hs as [Hba Hs].
    apply Z.leb_le in Hba.
    split; [exact Hs|]. intros x [<- | Hx]; [assumption|].
    destruct (IH b Hs) as [_ Hle]. specialize (Hle x Hx). lia.
Qed.

(** In a list sorted in decreasing order the first length is the largest
    and the last one the smallest. *)
Lemma sorted_decreasing_hd (l : list Z) (x : Z) :
  sorted_decreasing l = true -> In x l -> (x <= hd 0%Z l)%Z.
Proof.
  destruct l as [|a l]; intros Hs Hx; [destruct Hx|].
  destruct Hx as [<- | Hx]; simpl; [lia|].
  apply (proj2 (sorted_decreasing_cons a l Hs)). assumption.
Qed.

Lemma sorted_decreasing_last (l : list Z) (x : Z) :
  sorted_decreasing l = true -> In x l -> (last l 0%Z <= x)%Z.
Proof.
  induction l as [|a l IH]; intros Hs Hx; [destruct Hx|].
  destruct (sorted_decreasing_cons a l Hs) as [Hs' Hle].
  destruct l as [|b l].
  - destruct Hx as [<- | []]. simpl. lia.
  - change (last (a :: b :: l) 0%Z) with (last (b :: l) 0%Z).
    destruct Hx as [<- | Hx].
    + apply Hle. clear. induction l as [|c l IHl] in b |- *.
      * left. reflexivity.
      * right. change (In (last (c :: l) 0%Z) (c :: l)). apply IHl.
    + apply IH; assumption.
Qed.

Lemma last_In (l : list Z) : l <> [] -> In (last l 0%Z) l.
Proof.
  induction l as [|a l IH]; intros Hne; [congruence|].
  destruct l as [|b l]; [left; reflexivity|].
  right. apply IH. discriminate.
Qed.

Lemma packed_batch_sizes_length (lengths : list Z) :
  List.length (packed_batch_sizes lengths) = Z.to_nat (hd 0%Z lengths).
Proof. unfold packed_batch_sizes. rewrite length_map, length_seq. reflexivity. Qed.

Lemma count_longer_all (s : nat) (lengths : list Z) :
  Forall (fun x => (Z.of_nat s < x)%Z) lengths ->
  count_longer s lengths = List.length lengths.
Proof.
  unfold count_longer. induction 1 as [|x l Hx _ IH]; simpl.
  - reflexivity.
  - apply Z.ltb_lt in Hx. rewrite Hx. simpl. rewrite IH. reflexivity.
Qed.

Lemma count_longer_pos (s : nat) (lengths : list Z) :
  (Z.of_nat s < hd 0%Z lengths)%Z -> 0 < count_longer s lengths.
Proof.
  unfold count_longer. destruct lengths as [|a l]; simpl; intros Hs; [lia|].
  apply Z.ltb_lt in Hs. rewrite Hs. simpl. lia.
Qed.

(** With positive lengths the first time step holds the whole batch. *)
Lemma packed_batch_sizes_hd (lengths : list Z) :
  lengths <> [] -> Forall (fun x => (0 < x)%Z) lengths ->
  hd 0 (packed_batch_sizes lengths) = List.length lengths.
Proof.
  intros Hne Hpos. unfold packed_batch_sizes.
  destruct lengths as [|a l]; [congruence|]. simpl hd.
  assert (Ha : (0 < a)%Z) by (inversion Hpos; assumption).
  destruct (Z.to_nat a) as [|n] eqn:En; [lia|].
  simpl. apply count_longer_all. exact Hpos.
Qed.

Lemma packed_batch_sizes_pos (lengths : list Z) :
  Forall (fun n => 0 < n) (packed_batch_sizes lengths).
Proof.
  unfold packed_batch_sizes. apply Forall_forall. intros n Hn.
  apply in_map_iff in Hn as [s [<- Hs]]. apply in_seq in Hs.
  apply count_longer_pos. lia.
Qed.

Lemma list_sum_firstn_all (T : nat) (l : list nat) :
  List.length l <= T -> list_sum (firstn T l) = list_sum l.
Proof. intros Hl. rewrite firstn_all2 by assumption. reflexivity. Qed.

Lemma list_sum_firstn_pos (T : nat) (l : list nat) :
  Forall (fun n => 0 < n) l -> list_sum (firstn T l) = list_sum l ->
  List.length l <= T.
Proof.
  revert T. induction l as [|a l IH]; intros T Hpos Hsum; simpl; [lia|].
  inversion Hpos as [|? ? Ha Hl]; subst.
  destruct T as [|T]; simpl in Hsum.
  - lia.
  - assert (List.length l <= T) by (apply IH; [assumption | lia]). lia.
Qed.

Section EncoderFacts.
Context {fw : Framework}.

Lemma pack_padded_sequence_inv (x : Tensor3) (lengths : list Z) (p : PackedSequence) :
  pack_padded_sequence x lengths = Ok p ->
  dim0 x * dim1 x * dim2 x <> 0
  /\ List.length lengths = dim1 x
  /\ (0 < last lengths 0)%Z
  /\ sorted_decreasing lengths = true
  /\ batch_sizes p = packed_batch_sizes lengths
  /\ shape2 (ps_data p)
     = (list_sum (firstn (dim0 x) (packed_batch_sizes lengths)), dim2 x).
Proof.
  unfold pack_padded_sequence.
  destruct (dim0 x * dim1 x * dim2 x =? 0) eqn:E0; [discriminate|].
  destruct (List.length lengths =? dim1 x) eqn:E1; [|discriminate].
  destruct (last lengths 0 <=? 0)%Z eqn:E2; [discriminate|].
  destruct (sorted_decreasing lengths) eqn:E3; [|discriminate].
  simpl. intros [= <-]. simpl.
  apply Nat.eqb_neq in E0. apply Nat.eqb_eq in E1. apply Z.leb_gt in E2.
  repeat split; assumption.
Qed.

Lemma pack_padded_sequence_ok (x : Tensor3) (lengths : list Z) :
  0 < dim0 x -> 0 < dim1 x -> 0 < dim2 x ->
  List.length lengths = dim1 x ->
  sorted_decreasing lengths = true ->
  Forall (fun l => (0 < l <= Z.of_nat (dim0 x))%Z) lengths ->
  exists p, pack_padded_sequence x lengths = Ok p
    /\ batch_sizes p = packed_batch_sizes lengths
    /\ shape2 (ps_data p) = (list_sum (packed_batch_sizes lengths), dim2 x).
Proof.
  intros H0 H1 H2 Hlen Hs Hall.
  assert (Hne : lengths <> []) by (intros ->; simpl in Hlen; lia).
  assert (Hlast : (0 < last lengths 0)%Z).
  { rewrite Forall_forall in Hall. apply (Hall _ (last_In lengths Hne)). }
  assert (Hhd : (hd 0%Z lengths <= Z.of_nat (dim0 x))%Z).
  { destruct lengths as [|a l]; [congruence|]. inversion Hall; subst. simpl. lia. }
  unfold pack_padded_sequence.
  replace (dim0 x * dim1 x * dim2 x =? 0) with false
    by (symmetry; apply Nat.eqb_neq; nia).
  rewrite Hlen, Nat.eqb_refl. simpl.
  replace (last lengths 0 <=? 0)%Z with false by (symmetry; apply Z.leb_gt; lia).
  rewrite Hs. simpl.
  eexists. split; [reflexivity|]. simpl. split; [reflexivity|].
  unfold shape2. simpl. rewrite list_sum_firstn_all; [reflexivity|].
  rewrite packed_batch_sizes_length. lia.
Qed.

(** Lengths that are not sorted never get through the packing step. *)
Lemma pack_padded_sequence_unsorted (x : Tensor3) (lengths : list Z) :
  sorted_decreasing lengths = false ->
  exists e, pack_padded_sequence x lengths = Raise (FrameworkError e)
    /\ (e = PackEmpty \/ e = PackLengthsMismatch \/ e = PackNonPositive
        \/ e = PackUnsorted).
Proof.
  intros Hs. unfold pack_padded_sequence. rewrite Hs.
  destruct (dim0 x * dim1 x * dim2 x =? 0); [eexists; split; [reflexivity | tauto]|].
  destruct (List.length lengths =? dim1 x); simpl;
    [|eexists; split; [reflexivity | tauto]].
  destruct (last lengths 0 <=? 0)%Z; eexists; split; try reflexivity; tauto.
Qed.

(** The sum of the two halves of the features. *)
Lemma sum_directions_spec (H T B : nat) (U : Tensor3) :
  shape3 U = (T, B, 2 * H) ->
  exists o, sum_directions H U = Ok o /\ shape3 o = (T, B, H)
    /\ forall s b k, s < T -> b < B -> k < H ->
         at3 o s b k = (at3 U s b k + at3 U s b (H + k))%R.
Proof.
  destruct U as [u0 u1 u2 fu]. unfold shape3. cbn [dim0 dim1 dim2].
  remember (2 * H) as D eqn:HD.
  intros HU. injection HU as -> -> ->.
  unfold sum_directions, add3, broadcast3, slice_to, slice_from.
  cbn [dim0 dim1 dim2 at3].
  replace (Nat.min H D) with H by lia.
  replace (D - H) with H by lia.
  rewrite !broadcast_dim_same.
  eexists. split; [reflexivity|]. split; [reflexivity|].
  intros s b k Hs Hb Hk. cbn [at3].
  rewrite (bidx_lt T s), (bidx_lt B b), (bidx_lt H k) by assumption.
  reflexivity.
Qed.

Lemma nn_RNN_inv (m : rnn_mode) (i h n : nat) (d : R) (b : bool) (l : RNN) :
  nn_RNN m i h n d b = Ok l -> l = mkRNN m i h n d b.
Proof. unfold nn_RNN. destruct (ctor_ok _); [congruence | discriminate]. Qed.

(** What a successful [EncoderRNN.__init__] built. *)
Lemma EncoderRNN_init_inv (rt : string) (H : nat) (emb : Embedding) (n : nat)
    (d : R) (self : EncoderRNN) :
  EncoderRNN_init rt H emb n d = Ok self ->
  enc_hidden_size self = H /\ enc_embedding self = emb
  /\ (rt = "LSTM" ->
        enc_lstm self = Some (mkRNN LSTM H H n (if n =? 1 then 0%R else d) true))
  /\ (rt = "GRU" ->
        enc_gru self = Some (mkRNN GRU H H n (if n =? 1 then 0%R else d) true)).
Proof.
  unfold EncoderRNN_init.
  destruct (String.eqb_spec rt "LSTM") as [-> | Hl].
  - destruct (nn_RNN LSTM H H n _ true) as [l|] eqn:El; simpl; [|discriminate].
    apply nn_RNN_inv in El. subst l. intros [= <-]. simpl.
    repeat split; intros; first [reflexivity | discriminate].
  - destruct (String.eqb_spec rt "GRU") as [-> | Hg].
    + destruct (nn_RNN GRU H H n _ true) as [l|] eqn:El; simpl; [|discriminate].
      apply nn_RNN_inv in El. subst l. intros [= <-]. simpl.
      repeat split; intros; first [reflexivity | discriminate].
    + intros [= <-]. simpl. repeat split; congruence.
Qed.

(** The recurrent layer on a well-formed packed batch. *)
Lemma RNN_forward_packed_ok (l : RNN) (p : PackedSequence) (hx : option Hidden) :
  cols (ps_data p) = input_size l ->
  rows (ps_data p) = list_sum (batch_sizes p) ->
  hidden_ok l (hd 0 (batch_sizes p)) hx = true ->
  exists q h, RNN_forward_packed l p hx = Ok (q, h)
    /\ batch_sizes q = batch_sizes p
    /\ cols (ps_data q) = num_directions l * rnn_hidden_size l.
Proof.
  intros Hc Hr Hh. unfold RNN_forward_packed.
  rewrite Hc, Hr, !Nat.eqb_refl, Hh. simpl.
  eexists _, _. split; [reflexivity|]. simpl. split; [reflexivity|].
  pose proof (rnn_packed_kernel_shape l (ps_data p) (batch_sizes p) hx) as Hk.
  unfold shape2 in Hk. congruence.
Qed.

Lemma hidden_ok_None (l : RNN) (batch : nat) : hidden_ok l batch None = true.
Proof. reflexivity. Qed.

End EncoderFacts.

(** ** The encoder *)

Section EncoderClaims.
Context {fw : Framework}.

Lemma EncoderRNN_forward_ok (rt : string) (H : nat) (emb : Embedding) (n : nat)
    (d : R) (self : EncoderRNN) (x : LongTensor2) (lengths : list Z)
    (hidden : option Hidden) :
  EncoderRNN_init rt H emb n d = Ok self ->
  rt = "LSTM" \/ rt = "GRU" ->
  embedding_dim emb = H ->
  all_index_ok (num_embeddings emb) x = true ->
  0 < lrows x -> 0 < lcols x -> 0 < H ->
  List.length lengths = lcols x ->
  sorted_decreasing lengths = true ->
  Forall (fun l => (0 < l <= Z.of_nat (lrows x))%Z) lengths ->
  (forall g, enc_gru self = Some g -> hidden_ok g (lcols x) hidden = true) ->
  exists q h o,
    EncoderRNN_run_rnn rt self x lengths hidden = Ok (Some (q, h))
    /\ shape3 (pad_packed_sequence q) = (Z.to_nat (hd 0%Z lengths), lcols x, 2 * H)
    /\ EncoderRNN_forward rt self x lengths hidden = Ok (o, h)
    /\ shape3 o = (Z.to_nat (hd 0%Z lengths), lcols x, H)
    /\ forall s b k, s < Z.to_nat (hd 0%Z lengths) -> b < lcols x -> k < H ->
         at3 o s b k
         = (at3 (pad_packed_sequence q) s b k
            + at3 (pad_packed_sequence q) s b (H + k))%R.
Proof.
  intros Hinit Hrt Hemb Hidx Hr Hc HH Hlen Hs Hall Hhid.
  destruct (EncoderRNN_init_inv _ _ _ _ _ _ Hinit) as [Hhs [Hse [Hl Hg]]].
  assert (Hne : lengths <> []) by (intros ->; simpl in Hlen; lia).
  assert (Hpos : Forall (fun l => (0 < l)%Z) lengths).
  { eapply Forall_impl; [|exact Hall]. simpl. intros; lia. }
  (* embedding and packing *)
  set (embedded := mk3 (lrows x) (lcols x) (embedding_dim emb)
                     (fun i j k => at2 (emb_weight emb) (Z.to_nat (lat x i j)) k)).
  assert (Hembf : Embedding_forward (enc_embedding self) x = Ok embedded).
  { rewrite Hse. unfold Embedding_forward. rewrite Hidx. reflexivity. }
  destruct (pack_padded_sequence_ok embedded lengths) as [p [Hp [Hbs Hsh]]];
    try assumption; try (simpl; lia).
  injection Hsh as Hrows Hcols. simpl in Hcols.
  assert (Hrun : forall l hx,
            input_size l = H -> rnn_hidden_size l = H -> bidirectional l = true ->
            hidden_ok l (lcols x) hx = true ->
            exists q h, RNN_forward_packed l p hx = Ok (q, h)
              /\ shape3 (pad_packed_sequence q)
                 = (Z.to_nat (hd 0%Z lengths), lcols x, 2 * H)).
  { intros l hx Hi Hh Hb Hok.
    destruct (RNN_forward_packed_ok l p hx) as [q [h [Hq [Hqb Hqc]]]].
    - congruence.
    - congruence.
    - rewrite Hbs, packed_batch_sizes_hd, Hlen; assumption.
    - exists q, h. split; [exact Hq|].
      unfold pad_packed_sequence, shape3. cbn [dim0 dim1 dim2].
      rewrite Hqb, Hbs, packed_batch_sizes_length, packed_batch_sizes_hd, Hlen, Hqc
        by assumption.
      unfold num_directions. rewrite Hb, Hh. reflexivity. }
  assert (Hrnn : exists q h,
            EncoderRNN_run_rnn rt self x lengths hidden = Ok (Some (q, h))
            /\ shape3 (pad_packed_sequence q)
               = (Z.to_nat (hd 0%Z lengths), lcols x, 2 * H)).
  { unfold EncoderRNN_run_rnn. rewrite Hembf. cbn [bind]. rewrite Hp. cbn [bind].
    destruct Hrt as [-> | ->].
    - rewrite (Hl eq_refl). cbn [String.eqb Ascii.eqb Bool.eqb getattr bind].
      destruct (Hrun (mkRNN LSTM H H n (if n =? 1 then 0%R else d) true) None)
        as [q [h [Hq Hsh]]]; try reflexivity.
      exists q, h. rewrite Hq. split; [reflexivity | exact Hsh].
    - rewrite (Hg eq_refl). cbn [String.eqb Ascii.eqb Bool.eqb getattr bind].
      destruct (Hrun (mkRNN GRU H H n (if n =? 1 then 0%R else d) true) hidden)
        as [q [h [Hq Hsh]]]; try reflexivity.
      { apply Hhid. apply Hg. reflexivity. }
      exists q, h. rewrite Hq. split; [reflexivity | exact Hsh]. }
  destruct Hrnn as [q [h [Hq Hsh]]].
  destruct (sum_directions_spec H _ _ _ Hsh) as [o [Ho [Hosh Hoat]]].
  exists q, h, o. split; [exact Hq|]. split; [exact Hsh|].
  split; [|split; [exact Hosh | exact Hoat]].
  unfold EncoderRNN_forward. rewrite Hq. cbn [bind]. rewrite Hhs, Ho. reflexivity.
Qed.

Lemma RNN_forward_packed_inv (l : RNN) (p : PackedSequence) (hx : option Hidden)
    (r : PackedSequence * Hidden) :
  RNN_forward_packed l p hx = Ok r ->
  rows (ps_data p) = list_sum (batch_sizes p).
Proof.
  unfold RNN_forward_packed.
  destruct (cols (ps_data p) =? input_size l); [|discriminate].
  destruct (hidden_ok l (hd 0 (batch_sizes p)) hx); [|discriminate].
  destruct (rows (ps_data p) =? list_sum (batch_sizes p)) eqn:E; [|discriminate].
  intros _. apply Nat.eqb_eq. exact E.
Qed.

(** Whatever the recurrent layer, a result of lines 50-57 went through the
    packing step and through a recurrent layer that took the packed rows. *)
Lemma EncoderRNN_run_rnn_inv (rt : string) (self : EncoderRNN) (x : LongTensor2)
    (lengths : list Z) (hidden : option Hidden) (r : PackedSequence * Hidden) :
  EncoderRNN_run_rnn rt self x lengths hidden = Ok (Some r) ->
  exists embedded p,
    Embedding_forward (enc_embedding self) x = Ok embedded
    /\ pack_padded_sequence embedded lengths = Ok p
    /\ rows (ps_data p) = list_sum (batch_sizes p).
Proof.
  unfold EncoderRNN_run_rnn. intros Hrun.
  apply bind_Ok_inv in Hrun as [embedded [Hemb Hrun]].
  apply bind_Ok_inv in Hrun as [p [Hp Hrun]].
  exists embedded, p. split; [exact Hemb|]. split; [exact Hp|].
  destruct (String.eqb rt "LSTM"); [|destruct (String.eqb rt "GRU")].
  - apply bind_Ok_inv in Hrun as [l [_ Hrun]].
    apply bind_Ok_inv in Hrun as [r' [Hr _]].
    apply (RNN_forward_packed_inv _ _ _ _ Hr).
  - apply bind_Ok_inv in Hrun as [l [_ Hrun]].
    apply bind_Ok_inv in Hrun as [r' [Hr _]].
    apply (RNN_forward_packed_inv _ _ _ _ Hr).
  - discriminate.
Qed.

Lemma Embedding_forward_dims (e : Embedding) (x : LongTensor2) (y : Tensor3) :
  Embedding_forward e x = Ok y -> shape3 y = (lrows x, lcols x, embedding_dim e).
Proof.
  unfold Embedding_forward. destruct (all_index_ok _ x); [|discriminate].
  intros [= <-]. reflexivity.
Qed.

(** The lengths of a batch the encoder returned a result for. *)
Lemma EncoderRNN_forward_lengths (rt : string) (self : EncoderRNN) (x : LongTensor2)
    (lengths : list Z) (hidden : option Hidden) (r : Tensor3 * Hidden) :
  EncoderRNN_forward rt self x lengths hidden = Ok r ->
  sorted_decreasing lengths = true
  /\ Forall (fun l => (0 < l <= Z.of_nat (lrows x))%Z) lengths.
Proof.
  unfold EncoderRNN_forward. intros Hf.
  apply bind_Ok_inv in Hf as [[[q h]|] [Hrun Hf]]; [|discriminate].
  apply EncoderRNN_run_rnn_inv in Hrun as [embedded [p [Hemb [Hp Hrows]]]].
  apply Embedding_forward_dims in Hemb. injection Hemb as E0 E1 E2.
  destruct (pack_padded_sequence_inv _ _ _ Hp) as [_ [_ [Hlast [Hs [Hbs Hsh]]]]].
  split; [exact Hs|].
  injection Hsh as Hr _. rewrite Hr, Hbs, E0 in Hrows.
  apply list_sum_firstn_pos in Hrows; [|apply packed_batch_sizes_pos].
  rewrite packed_batch_sizes_length in Hrows.
  apply Forall_forall. intros l Hl.
  pose proof (sorted_decreasing_last lengths l Hs Hl).
  pose proof (sorted_decreasing_hd lengths l Hs Hl).
  lia.
Qed.

(** C2.  For a padded batch of T x B word indexes with valid lengths
    (positive, at most T, sorted in decreasing order), the encoder returns
    outputs of feature size hidden_size: at every time step s, batch
    position b and feature k < hidden_size, the sum of feature k (forward
    direction) and feature hidden_size + k (backward direction) of the
    unpacked output of the bidirectional recurrent layer. *)
Theorem EncoderRNN_forward_sums_directions (rt : string) (H : nat) (emb : Embedding)
    (n : nat) (d : R) (self : EncoderRNN) (x : LongTensor2) (lengths : list Z)
    (hidden : option Hidden) :
  EncoderRNN_init rt H emb n d = Ok self ->
  rt = "LSTM" \/ rt = "GRU" ->
  embedding_dim emb = H ->
  all_index_ok (num_embeddings emb) x = true ->
  0 < lrows x -> 0 < lcols x -> 0 < H ->
  List.length lengths = lcols x ->
  sorted_decreasing lengths = true ->
  Forall (fun l => (0 < l <= Z.of_nat (lrows x))%Z) lengths ->
  (forall g, enc_gru self = Some g -> hidden_ok g (lcols x) hidden = true) ->
  exists packed_outputs h outputs,
    EncoderRNN_run_rnn rt self x lengths hidden = Ok (Some (packed_outputs, h))
    /\ shape3 (pad_packed_sequence packed_outputs)
       = (Z.to_nat (hd 0%Z lengths), lcols x, 2 * H)
    /\ EncoderRNN_forward rt self x lengths hidden = Ok (outputs, h)
    /\ shape3 outputs = (Z.to_nat (hd 0%Z lengths), lcols x, H)
    /\ forall s b k, s < Z.to_nat (hd 0%Z lengths) -> b < lcols x -> k < H ->
         at3 outputs s b k
         = (at3 (pad_packed_sequence packed_outputs) s b k
            + at3 (pad_packed_sequence packed_outputs) s b (H + k))%R.
Proof. apply EncoderRNN_forward_ok. Qed.

(** C10.  [EncoderRNN.forward] has a precondition on [input_lengths] that
    it does not check itself: whenever it returns, the lengths are sorted
    in decreasing order, positive and at most the padded length; with
    lengths that are not sorted the packing step raises, and so does
    [forward]; and with lengths that meet the precondition (and an
    otherwise well-formed call) it returns. *)
Theorem EncoderRNN_forward_lengths_precondition (rt : string) (H : nat)
    (emb : Embedding) (n : nat) (d : R) (self : EncoderRNN) (x : LongTensor2)
    (lengths : list Z) (hidden : option Hidden) :
  EncoderRNN_init rt H emb n d = Ok self ->
  (forall r, EncoderRNN_forward rt self x lengths hidden = Ok r ->
     sorted_decreasing lengths = true
     /\ Forall (fun l => (0 < l <= Z.of_nat (lrows x))%Z) lengths)
  /\ (sorted_decreasing lengths = false ->
      forall embedded, Embedding_forward (enc_embedding self) x = Ok embedded ->
      exists e, pack_padded_sequence embedded lengths = Raise (FrameworkError e)
        /\ EncoderRNN_forward rt self x lengths hidden = Raise (FrameworkError e)
        /\ (e = PackEmpty \/ e = PackLengthsMismatch \/ e = PackNonPositive
            \/ e = PackUnsorted))
  /\ (rt = "LSTM" \/ rt = "GRU" ->
      embedding_dim emb = H ->
      all_index_ok (num_embeddings emb) x = true ->
      0 < lrows x -> 0 < lcols x -> 0 < H ->
      List.length lengths = lcols x ->
      (forall g, enc_gru self = Some g -> hidden_ok g (lcols x) hidden = true) ->
      sorted_decreasing lengths = true ->
      Forall (fun l => (0 < l <= Z.of_nat (lrows x))%Z) lengths ->
      exists r, EncoderRNN_forward rt self x lengths hidden = Ok r).
Proof.
  intros Hinit. split; [|split].
  - intros r. apply EncoderRNN_forward_lengths.
  - intros Hs embedded Hemb.
    destruct (pack_padded_sequence_unsorted embedded lengths Hs) as [e [Hp He]].
    exists e. split; [exact Hp|]. split; [|exact He].
    unfold EncoderRNN_forward, EncoderRNN_run_rnn. rewrite Hemb. cbn [bind].
    rewrite Hp. reflexivity.
  - intros Hrt Hemb Hidx Hr Hc HH Hlen Hhid Hs Hall.
    destruct (EncoderRNN_forward_ok rt H emb n d self x lengths hidden)
      as [q [h [o [_ [_ [Hf _]]]]]]; try assumption.
    exists (o, h). exact Hf.
Qed.
End EncoderClaims.

(** ** The decoder *)

Section DecoderClaims.
Context {fw : Framework}.

Lemma Decoder_output_spec (self : LuongAttnDecoderRNN) (rnn_output w enc : Tensor3)
    (H V T B : nat) :
  dec_concat self = nn_Linear "concat" (H * 2) H ->
  dec_out self = nn_Linear "out" H V ->
  shape3 rnn_output = (1, B, H) -> shape3 w = (B, 1, T) -> shape3 enc = (T, B, H) ->
  exists output, Decoder_output self rnn_output w enc = Ok output
    /\ shape2 output = (B, V)
    /\ forall b o, b < B -> o < V ->
         at2 output b o
         = (exp (luong_logit (dec_concat self) (dec_out self) rnn_output w enc H T b o)
            / sum_n V (fun o' =>
                exp (luong_logit (dec_concat self) (dec_out self) rnn_output w enc
                       H T b o')))%R.
Proof.
  intros Hconcat Hout Hr Hw He.
  destruct rnn_output as [r0 r1 r2 fr], w as [w0 w1 w2 fw'], enc as [e0 e1 e2 fe].
  unfold shape3 in *. cbn [dim0 dim1 dim2] in *.
  injection Hr as -> -> ->. injection Hw as -> -> ->. injection He as -> -> ->.
  unfold Decoder_output, bmm, transpose01, squeeze0, squeeze1, cat_dim1.
  repeat (progress (cbn [dim0 dim1 dim2 at3 rows cols at2 andb bind];
                    rewrite ?Nat.eqb_refl)).
  rewrite Hconcat, Hout.
  rewrite Linear_forward2_ok by (cbn [cols nn_Linear in_features]; lia).
  cbn [bind]. rewrite Linear_forward2_ok by reflexivity.
  cbn [bind].
  eexists. split; [reflexivity|]. split; [reflexivity|].
  intros b o Hb Ho. reflexivity.
Qed.

(** What a successful [LuongAttnDecoderRNN.__init__] built. *)
Lemma Decoder_init_inv (rt am : string) (emb : Embedding) (H V n : nat) (d : R)
    (self : LuongAttnDecoderRNN) :
  LuongAttnDecoderRNN_init rt am emb H V n d = Ok self ->
  dec_embedding self = emb
  /\ dec_concat self = nn_Linear "concat" (H * 2) H
  /\ dec_out self = nn_Linear "out" H V
  /\ Attn_init am H = Ok (dec_attn self)
  /\ (rt = "LSTM" ->
        dec_lstm self = Some (mkRNN LSTM H H n (if n =? 1 then 0%R else d) false))
  /\ (rt = "GRU" ->
        dec_gru self = Some (mkRNN GRU H H n (if n =? 1 then 0%R else d) false))
  /\ (rt <> "LSTM" -> rt <> "GRU" -> dec_lstm self = None /\ dec_gru self = None).
Proof.
  unfold LuongAttnDecoderRNN_init. intros Hinit.
  apply bind_Ok_inv in Hinit as [drop [_ Hinit]].
  apply bind_Ok_inv in Hinit as [[lstm gru] [Hrnn Hinit]].
  apply bind_Ok_inv in Hinit as [a [Ha Hinit]].
  injection Hinit as <-. cbn [dec_embedding dec_concat dec_out dec_attn dec_lstm
                              dec_gru fst snd].
  split; [reflexivity|]. split; [reflexivity|]. split; [reflexivity|].
  split; [exact Ha|].
  destruct (String.eqb_spec rt "LSTM") as [-> | Hl].
  - apply bind_Ok_inv in Hrnn as [l [Hl Hrnn]]. apply nn_RNN_inv in Hl. subst l.
    injection Hrnn as <- <-.
    repeat split; intros; first [reflexivity | discriminate | congruence].
  - destruct (String.eqb_spec rt "GRU") as [-> | Hg].
    + apply bind_Ok_inv in Hrnn as [l [Hl' Hrnn]]. apply nn_RNN_inv in Hl'. subst l.
      injection Hrnn as <- <-.
      repeat split; intros; first [reflexivity | discriminate | congruence].
    + injection Hrnn as <- <-. repeat split; intros; congruence.
Qed.

(** One step of the decoder on a well-formed call. *)
Lemma Decoder_forward_ok (rt am : string) (emb : Embedding) (H V n : nat) (d : R)
    (self : LuongAttnDecoderRNN) (x : LongTensor2) (last_hidden : option Hidden)
    (enc : Tensor3) (T : nat) :
  LuongAttnDecoderRNN_init rt am emb H V n d = Ok self ->
  rt = "LSTM" \/ rt = "GRU" ->
  embedding_dim emb = H ->
  lrows x = 1 ->
  all_index_ok (num_embeddings emb) x = true ->
  (forall l, dec_lstm self = Some l \/ dec_gru self = Some l ->
             hidden_ok l (lcols x) last_hidden = true) ->
  shape3 enc = (T, lcols x, H) ->
  exists rnn_output hidden w output,
    Decoder_run_rnn rt self x last_hidden = Ok (Some (rnn_output, hidden))
    /\ shape3 rnn_output = (1, lcols x, H)
    /\ Attn_forward (dec_attn self) rnn_output enc = Ok w
    /\ shape3 w = (lcols x, 1, T)
    /\ LuongAttnDecoderRNN_forward rt self x last_hidden enc = Ok (output, hidden)
    /\ shape2 output = (lcols x, V)
    /\ forall b o, b < lcols x -> o < V ->
         at2 output b o
         = (exp (luong_logit (dec_concat self) (dec_out self) rnn_output w enc H T b o)
            / sum_n V (fun o' =>
                exp (luong_logit (dec_concat self) (dec_out self) rnn_output w enc
                       H T b o')))%R.
Proof.
  intros Hinit Hrt Hemb Hrows Hidx Hhid He.
  destruct (Decoder_init_inv _ _ _ _ _ _ _ _ Hinit)
    as [Hse [Hconcat [Hout [Hattn [Hl [Hg _]]]]]].
  set (embedded := Dropout_forward (dec_embedding_dropout self)
         (mk3 (lrows x) (lcols x) (embedding_dim emb)
            (fun i j k => at2 (emb_weight emb) (Z.to_nat (lat x i j)) k))).
  assert (Hesh : shape3 embedded = (1, lcols x, H)).
  { unfold embedded, Dropout_forward. rewrite dropout_kernel_shape.
    unfold shape3. cbn [dim0 dim1 dim2]. congruence. }
  assert (Hstep : forall l, input_size l = H -> rnn_hidden_size l = H ->
            bidirectional l = false ->
            hidden_ok l (lcols x) last_hidden = true ->
            exists r h, RNN_forward l embedded last_hidden = Ok (r, h)
              /\ shape3 r = (1, lcols x, H)).
  { intros l Hi Hh Hb Hok. injection Hesh as E0 E1 E2.
    unfold RNN_forward. rewrite E2, Hi, Nat.eqb_refl, E1, Hok. cbn [negb].
    destruct (rnn_kernel l embedded last_hidden) as [r h] eqn:Ek.
    exists r, h. split; [reflexivity|].
    pose proof (rnn_kernel_shape l embedded last_hidden) as Hk.
    rewrite Ek in Hk. cbn [fst] in Hk. rewrite Hk, E0, E1.
    unfold num_directions. rewrite Hb, Hh, Nat.mul_1_l. reflexivity. }
  assert (Hrun : exists r h,
            Decoder_run_rnn rt self x last_hidden = Ok (Some (r, h))
            /\ shape3 r = (1, lcols x, H)).
  { unfold Decoder_run_rnn, Embedding_forward. rewrite Hse, Hidx. cbn [bind].
    fold embedded.
    destruct Hrt as [-> | ->].
    - rewrite (Hl eq_refl). cbn [String.eqb Ascii.eqb Bool.eqb getattr bind].
      destruct (Hstep (mkRNN LSTM H H n (if n =? 1 then 0%R else d) false))
        as [r [h [Hr Hsh]]]; try reflexivity.
      { apply Hhid. left. apply Hl. reflexivity. }
      exists r, h. rewrite Hr. split; [reflexivity | exact Hsh].
    - rewrite (Hg eq_refl). cbn [String.eqb Ascii.eqb Bool.eqb getattr bind].
      destruct (Hstep (mkRNN GRU H H n (if n =? 1 then 0%R else d) false))
        as [r [h [Hr Hsh]]]; try reflexivity.
      { apply Hhid. right. apply Hg. reflexivity. }
      exists r, h. rewrite Hr. split; [reflexivity | exact Hsh]. }
  destruct Hrun as [r [h [Hrun Hrsh]]].
  destruct (Attn_forward_ok am H T (lcols x) (dec_attn self) r enc Hattn Hrsh He)
    as [e [_ [Hesh' Hw]]].
  assert (Hwsh : shape3 (unsqueeze1 (softmax_dim1 (t e))) = (lcols x, 1, T)).
  { injection Hesh' as E0 E1. unfold shape3. cbn. congruence. }
  destruct (Decoder_output_spec self r _ enc H V T (lcols x) Hconcat Hout Hrsh Hwsh He)
    as [output [Hout' [Hosh Hoat]]].
  exists r, h, (unsqueeze1 (softmax_dim1 (t e))), output.
  repeat split; try assumption.
  unfold LuongAttnDecoderRNN_forward. rewrite Hrun. cbn [bind].
  rewrite Hw. cbn [bind]. rewrite Hout'. reflexivity.
Qed.

(** C4.  In one decoding step on well-formed inputs, the context vector of
    batch element b is the sum over the encoder time steps s of
    w[b,0,s] * encoder_outputs[s,b,:] ([attention_context]), where w is what
    [Attn.forward] returns for the current output of the recurrent layer;
    and the decoder returns the softmax, over the words, of the output
    layer applied to tanh of the concat layer applied to
    [rnn_output ; context] ([luong_logit]). *)
Theorem Decoder_forward_context (rt am : string) (emb : Embedding) (H V n : nat)
    (d : R) (self : LuongAttnDecoderRNN) (x : LongTensor2)
    (last_hidden : option Hidden) (enc : Tensor3) (T : nat) :
  LuongAttnDecoderRNN_init rt am emb H V n d = Ok self ->
  rt = "LSTM" \/ rt = "GRU" ->
  embedding_dim emb = H ->
  lrows x = 1 ->
  all_index_ok (num_embeddings emb) x = true ->
  (forall l, dec_lstm self = Some l \/ dec_gru self = Some l ->
             hidden_ok l (lcols x) last_hidden = true) ->
  shape3 enc = (T, lcols x, H) ->
  exists rnn_output hidden w output,
    Decoder_run_rnn rt self x last_hidden = Ok (Some (rnn_output, hidden))
    /\ Attn_forward (dec_attn self) rnn_output enc = Ok w
    /\ LuongAttnDecoderRNN_forward rt self x last_hidden enc = Ok (output, hidden)
    /\ shape2 output = (lcols x, V)
    /\ forall b o, b < lcols x -> o < V ->
         at2 output b o
         = (exp (luong_logit (dec_concat self) (dec_out self) rnn_output w enc H T b o)
            / sum_n V (fun o' =>
                exp (luong_logit (dec_concat self) (dec_out self) rnn_output w enc
                       H T b o')))%R.
Proof.
  intros Hinit Hrt Hemb Hrows Hidx Hhid He.
  destruct (Decoder_forward_ok rt am emb H V n d self x last_hidden enc T)
    as [r [h [w [output [Hrun [_ [Hw [_ [Hf [Hsh Hat]]]]]]]]]]; try assumption.
  exists r, h, w, output. repeat split; try assumption.
Qed.

(** C9.  [RNN_TYPE] is never validated.  With a value other than "LSTM"
    and "GRU" the two constructors build no recurrent layer and raise
    nothing because of it; a later call of [forward] always raises, never a
    [ValueError], and once the steps before the recurrent layer have
    succeeded what it raises is the unbound local ([outputs] in the
    encoder, [rnn_output] in the decoder). *)
Theorem unknown_RNN_TYPE_unbound_local (rt : string) :
  rt <> "LSTM" -> rt <> "GRU" ->
  (forall H emb n d,
     EncoderRNN_init rt H emb n d = Ok (mkEncoderRNN n H emb None None))
  /\ (forall am emb H V n d drop a,
        nn_Dropout d = Ok drop -> Attn_init am H = Ok a ->
        LuongAttnDecoderRNN_init rt am emb H V n d
        = Ok (mkDecoder am H V n d emb drop None None
                (nn_Linear "concat" (H * 2) H) (nn_Linear "out" H V) a))
  /\ (forall self x lengths hidden,
        (exists e, EncoderRNN_forward rt self x lengths hidden = Raise e
                   /\ is_value_error e = false)
        /\ (forall embedded p,
              Embedding_forward (enc_embedding self) x = Ok embedded ->
              pack_padded_sequence embedded lengths = Ok p ->
              EncoderRNN_forward rt self x lengths hidden
              = Raise (UnboundLocalError "outputs")))
  /\ (forall self x h enc,
        (exists e, LuongAttnDecoderRNN_forward rt self x h enc = Raise e
                   /\ is_value_error e = false)
        /\ (forall embedded,
              Embedding_forward (dec_embedding self) x = Ok embedded ->
              LuongAttnDecoderRNN_forward rt self x h enc
              = Raise (UnboundLocalError "rnn_output"))).
Proof.
  intros Hl Hg.
  apply String.eqb_neq in Hl. apply String.eqb_neq in Hg.
  assert (Henc : forall self x lengths hidden embedded p,
            Embedding_forward (enc_embedding self) x = Ok embedded ->
            pack_padded_sequence embedded lengths = Ok p ->
            EncoderRNN_forward rt self x lengths hidden
            = Raise (UnboundLocalError "outputs")).
  { intros self x lengths hidden embedded p He Hp.
    unfold EncoderRNN_forward, EncoderRNN_run_rnn.
    rewrite He. cbn [bind]. rewrite Hp. cbn [bind]. rewrite Hl, Hg. reflexivity. }
  assert (Hdec : forall self x h enc embedded,
            Embedding_forward (dec_embedding self) x = Ok embedded ->
            LuongAttnDecoderRNN_forward rt self x h enc
            = Raise (UnboundLocalError "rnn_output")).
  { intros self x h enc embedded He.
    unfold LuongAttnDecoderRNN_forward, Decoder_run_rnn.
    rewrite He. cbn [bind]. rewrite Hl, Hg. reflexivity. }
  split; [|split; [|split]].
  - intros H emb n d. unfold EncoderRNN_init. rewrite Hl, Hg. reflexivity.
  - intros am emb H V n d drop a Hd Ha.
    unfold LuongAttnDecoderRNN_init. rewrite Hd. cbn [bind]. rewrite Hl, Hg.
    cbn [bind]. rewrite Ha. reflexivity.
  - intros self x lengths hidden. split; [|apply Henc].
    destruct (Embedding_forward (enc_embedding self) x) as [embedded|e] eqn:He.
    + destruct (pack_padded_sequence embedded lengths) as [p|e] eqn:Hp.
      * eexists. split; [apply (Henc _ _ _ _ _ _ He Hp) | reflexivity].
      * exists e. split.
        -- unfold EncoderRNN_forward, EncoderRNN_run_rnn.
           rewrite He. cbn [bind]. rewrite Hp. reflexivity.
        -- apply (no_value_error_raise _ _ (nve_pack_padded_sequence embedded lengths) Hp).
    + exists e. split.
      * unfold EncoderRNN_forward, EncoderRNN_run_rnn. rewrite He. reflexivity.
      * apply (no_value_error_raise _ _ (nve_Embedding_forward _ x) He).
  - intros self x h enc. split; [|apply Hdec].
    destruct (Embedding_forward (dec_embedding self) x) as [embedded|e] eqn:He.
    + eexists. split; [apply (Hdec _ _ _ _ _ He) | reflexivity].
    + exists e. split.
      * unfold LuongAttnDecoderRNN_forward, Decoder_run_rnn. rewrite He. reflexivity.
      * apply (no_value_error_raise _ _ (nve_Embedding_forward _ x) He).
Qed.

End DecoderClaims.

(** ** Import time: devices and optimizers *)

Section ImportClaims.
Context {fw : Framework}.

Lemma optim_Adam_inv (ps : parameters) (lr wd : R) (o : Optimizer) :
  optim_Adam ps lr wd = Ok o -> o = mkOptimizer "Adam" ps lr wd [].
Proof. unfold optim_Adam. destruct (ctor_ok _); [congruence | discriminate]. Qed.

(** The loops over the state of an optimizer that has not stepped yet have
    nothing to visit: no [.cuda()] call is made. *)
Lemma fresh_optimizer_state_cuda (cuda_available : bool) (ps : parameters)
    (lr wd : R) (o : Optimizer) :
  optim_Adam ps lr wd = Ok o -> optimizer_state_cuda cuda_available o = Ok o.
Proof. intros Ho. apply optim_Adam_inv in Ho. subst o. reflexivity. Qed.

Lemma nn_Module_to_inv {A} (cuda_available : bool) (m m' : Placed A) (dev : device) :
  nn_Module_to cuda_available m dev = Ok m' ->
  m' = mkPlaced (obj m) dev /\ (dev = cuda -> cuda_available = true).
Proof.
  unfold nn_Module_to. destruct dev.
  - intros [= <-]. split; [reflexivity | discriminate].
  - destruct cuda_available; [|discriminate]. intros [= <-]. split; reflexivity.
Qed.

Lemma nn_Module_to_ok {A} (cuda_available : bool) (m : Placed A) (dev : device) :
  (dev = cuda -> cuda_available = true) ->
  nn_Module_to cuda_available m dev = Ok (mkPlaced (obj m) dev).
Proof.
  unfold nn_Module_to. destruct dev; intros Hd; [reflexivity|].
  rewrite Hd; reflexivity.
Qed.

(** Everything a successful import defined. *)
Lemma import_module_inv (cfg : Config) (V : nat) (cuda_available : bool) (m : Globals) :
  import_module cfg V cuda_available = Ok m ->
  exists e d,
    EncoderRNN_init (RNN_TYPE cfg) (HIDDEN_SIZE cfg) (nn_Embedding V (HIDDEN_SIZE cfg))
      (ENCODER_N_LAYERS cfg) (DROPOUT cfg) = Ok e
    /\ LuongAttnDecoderRNN_init (RNN_TYPE cfg) (ATTN_MODEL cfg)
         (nn_Embedding V (HIDDEN_SIZE cfg)) (HIDDEN_SIZE cfg) V
         (DECODER_N_LAYERS cfg) (DROPOUT cfg) = Ok d
    /\ (DEVICE cfg = cuda -> cuda_available = true)
    /\ encoder m = mkPlaced e (DEVICE cfg)
    /\ decoder m = mkPlaced d (DEVICE cfg)
    /\ encoder_optimizer m
       = mkOptimizer "Adam" (EncoderParameters e) (LEARNING_RATE cfg) 0%R []
    /\ decoder_optimizer m
       = mkOptimizer "Adam" (DecoderParameters d)
           (LEARNING_RATE cfg * DECODER_LEARNING_RATIO cfg)%R 1e-5%R [].
Proof.
  unfold import_module. intros Hm.
  apply bind_Ok_inv in Hm as [e [He Hm]].
  apply bind_Ok_inv in Hm as [d [Hd Hm]].
  apply bind_Ok_inv in Hm as [pe [Hpe Hm]].
  apply bind_Ok_inv in Hm as [pd [Hpd Hm]].
  apply bind_Ok_inv in Hm as [oe [Hoe Hm]].
  apply bind_Ok_inv in Hm as [od [Hod Hm]].
  rewrite (fresh_optimizer_state_cuda _ _ _ _ _ Hoe) in Hm. cbn [bind] in Hm.
  rewrite (fresh_optimizer_state_cuda _ _ _ _ _ Hod) in Hm. cbn [bind] in Hm.
  injection Hm as <-.
  apply nn_Module_to_inv in Hpe as [-> Hdev]. apply nn_Module_to_inv in Hpd as [-> _].
  apply optim_Adam_inv in Hoe. apply optim_Adam_inv in Hod. subst oe od.
  exists e, d. cbn. repeat split; assumption.
Qed.

Lemma import_module_ok (cfg : Config) (V : nat) (cuda_available : bool)
    (e : EncoderRNN) (d : LuongAttnDecoderRNN) :
  EncoderRNN_init (RNN_TYPE cfg) (HIDDEN_SIZE cfg) (nn_Embedding V (HIDDEN_SIZE cfg))
    (ENCODER_N_LAYERS cfg) (DROPOUT cfg) = Ok e ->
  LuongAttnDecoderRNN_init (RNN_TYPE cfg) (ATTN_MODEL cfg)
    (nn_Embedding V (HIDDEN_SIZE cfg)) (HIDDEN_SIZE cfg) V
    (DECODER_N_LAYERS cfg) (DROPOUT cfg) = Ok d ->
  ctor_ok (CallAdam (LEARNING_RATE cfg) 0%R) = true ->
  ctor_ok (CallAdam (LEARNING_RATE cfg * DECODER_LEARNING_RATIO cfg)%R 1e-5%R) = true ->
  (DEVICE cfg = cuda -> cuda_available = true) ->
  exists m, import_module cfg V cuda_available = Ok m.
Proof.
  intros He Hd Hae Had Hdev. unfold import_module.
  rewrite He. cbn [bind]. rewrite Hd. cbn [bind].
  rewrite !nn_Module_to_ok by assumption. cbn [bind obj].
  unfold optim_Adam. rewrite Hae, Had. cbn [bind].
  eexists. reflexivity.
Qed.

Lemma import_module_no_cuda (cfg : Config) (V : nat) (e : EncoderRNN)
    (d : LuongAttnDecoderRNN) :
  EncoderRNN_init (RNN_TYPE cfg) (HIDDEN_SIZE cfg) (nn_Embedding V (HIDDEN_SIZE cfg))
    (ENCODER_N_LAYERS cfg) (DROPOUT cfg) = Ok e ->
  LuongAttnDecoderRNN_init (RNN_TYPE cfg) (ATTN_MODEL cfg)
    (nn_Embedding V (HIDDEN_SIZE cfg)) (HIDDEN_SIZE cfg) V
    (DECODER_N_LAYERS cfg) (DROPOUT cfg) = Ok d ->
  DEVICE cfg = cuda ->
  import_module cfg V false = Raise (FrameworkError CudaUnavailable).
Proof.
  intros He Hd Hdev. unfold import_module.
  rewrite He. cbn [bind]. rewrite Hd. cbn [bind]. rewrite Hdev. reflexivity.
Qed.

(** C8.  A successful import leaves exactly the two optimizers
    [encoder_optimizer] and [decoder_optimizer], both Adam: the first over
    the encoder's parameters with learning rate LEARNING_RATE and weight
    decay 0, the second over the decoder's parameters with learning rate
    LEARNING_RATE * DECODER_LEARNING_RATIO and weight decay 1e-5; and the
    import succeeds once the constructors accept the configuration and
    DEVICE can be used. *)
Theorem import_builds_two_Adam_optimizers (cfg : Config) (V : nat)
    (cuda_available : bool) :
  (forall m, import_module cfg V cuda_available = Ok m ->
     encoder_optimizer m
     = mkOptimizer "Adam" (EncoderParameters (obj (encoder m)))
         (LEARNING_RATE cfg) 0%R []
     /\ decoder_optimizer m
        = mkOptimizer "Adam" (DecoderParameters (obj (decoder m)))
            (LEARNING_RATE cfg * DECODER_LEARNING_RATIO cfg)%R 1e-5%R [])
  /\ (forall e d,
        EncoderRNN_init (RNN_TYPE cfg) (HIDDEN_SIZE cfg)
          (nn_Embedding V (HIDDEN_SIZE cfg)) (ENCODER_N_LAYERS cfg) (DROPOUT cfg)
        = Ok e ->
        LuongAttnDecoderRNN_init (RNN_TYPE cfg) (ATTN_MODEL cfg)
          (nn_Embedding V (HIDDEN_SIZE cfg)) (HIDDEN_SIZE cfg) V
          (DECODER_N_LAYERS cfg) (DROPOUT cfg) = Ok d ->
        ctor_ok (CallAdam (LEARNING_RATE cfg) 0%R) = true ->
        ctor_ok (CallAdam (LEARNING_RATE cfg * DECODER_LEARNING_RATIO cfg)%R 1e-5%R)
        = true ->
        (DEVICE cfg = cuda -> cuda_available = true) ->
        exists m, import_module cfg V cuda_available = Ok m).
Proof.
  split.
  - intros m Hm.
    destruct (import_module_inv _ _ _ _ Hm) as [e [d [_ [_ [_ [He [Hd [Hoe Hod]]]]]]]].
    rewrite He, Hd. cbn [obj]. split; assumption.
  - intros e d. apply import_module_ok.
Qed.

(** C6, as amended.  The module's own code puts the encoder and the
    decoder on the configured DEVICE with [.to(DEVICE)]: with models and
    optimizers the constructors accept, the import succeeds exactly when
    DEVICE is the CPU or a CUDA device is available, and then both models
    are on DEVICE; with DEVICE = cuda and no CUDA device it fails in
    [.to].  The [.cuda()] loops over the optimizers' state visit nothing at
    import, whether or not there is a CUDA device. *)
Theorem import_device_placement (cfg : Config) (V : nat) (cuda_available : bool)
    (e : EncoderRNN) (d : LuongAttnDecoderRNN) :
  EncoderRNN_init (RNN_TYPE cfg) (HIDDEN_SIZE cfg) (nn_Embedding V (HIDDEN_SIZE cfg))
    (ENCODER_N_LAYERS cfg) (DROPOUT cfg) = Ok e ->
  LuongAttnDecoderRNN_init (RNN_TYPE cfg) (ATTN_MODEL cfg)
    (nn_Embedding V (HIDDEN_SIZE cfg)) (HIDDEN_SIZE cfg) V
    (DECODER_N_LAYERS cfg) (DROPOUT cfg) = Ok d ->
  ctor_ok (CallAdam (LEARNING_RATE cfg) 0%R) = true ->
  ctor_ok (CallAdam (LEARNING_RATE cfg * DECODER_LEARNING_RATIO cfg)%R 1e-5%R) = true ->
  ((exists m, import_module cfg V cuda_available = Ok m)
   <-> (DEVICE cfg = cpu \/ cuda_available = true))
  /\ (forall m, import_module cfg V cuda_available = Ok m ->
        encoder m = mkPlaced e (DEVICE cfg) /\ decoder m = mkPlaced d (DEVICE cfg)
        /\ opt_state (encoder_optimizer m) = []
        /\ opt_state (decoder_optimizer m) = [])
  /\ (DEVICE cfg = cuda -> cuda_available = false ->
        import_module cfg V cuda_available = Raise (FrameworkError CudaUnavailable))
  /\ (forall available ps lr wd o,
        optim_Adam ps lr wd = Ok o -> optimizer_state_cuda available o = Ok o).
Proof.
  intros He Hd Hae Had. split; [|split; [|split]].
  - split.
    + intros [m Hm].
      destruct (import_module_inv _ _ _ _ Hm) as [_ [_ [_ [_ [Hdev _]]]]].
      destruct (DEVICE cfg); [left; reflexivity | right; apply Hdev; reflexivity].
    + intros Hdev. apply (import_module_ok cfg V cuda_available e d); try assumption.
      intros Hc. destruct Hdev as [Hcpu | Hav]; [congruence | exact Hav].
  - intros m Hm.
    destruct (import_module_inv _ _ _ _ Hm)
      as [e' [d' [He' [Hd' [_ [Hpe [Hpd [Hoe Hod]]]]]]]].
    rewrite Hpe, Hpd, Hoe, Hod. cbn [opt_state].
    repeat split; congruence.
  - intros Hdev ->. apply (import_module_no_cuda cfg V e d); assumption.
  - intros available ps lr wd o. apply fresh_optimizer_state_cuda.
Qed.

End ImportClaims.

(** ** Concrete runs *)

Example Attn_init_rejects_luong :
  Attn_init (fw := toy_framework) "luong" 2
  = Raise (ValueError "luong" "is not an appropriate attention method.").
Proof. reflexivity. Qed.

Example pack_rejects_wrong_number_of_lengths :
  pack_padded_sequence example_encoder_outputs [1; 2]%Z
  = Raise (FrameworkError PackLengthsMismatch).
Proof. reflexivity. Qed.

Example pack_rejects_increasing_lengths :
  pack_padded_sequence (tensor3_of_list 2 1 [[[3];[4]]; [[5];[6]]]%R) [1; 2]%Z
  = Raise (FrameworkError PackUnsorted).
Proof. reflexivity. Qed.

Example packed_batch_sizes_21 : packed_batch_sizes example_lengths = [2; 1].
Proof. reflexivity. Qed.

Example dot_energy_example :
  exists e, dot_score example_hidden example_encoder_outputs = Ok e
    /\ at2 e 0 0 = 11%R /\ at2 e 1 0 = 17%R.
Proof. eexists. split; [reflexivity|]. simpl. split; lra. Qed.

Example encoder_init_example :
  EncoderRNN_init (fw := toy_framework) "GRU" 2 example_embedding 1 0%R
  = Ok example_encoder.
Proof. reflexivity. Qed.

Example decoder_init_example :
  LuongAttnDecoderRNN_init (fw := toy_framework) "GRU" "dot" example_embedding
    2 3 1 (1 / 10)%R
  = Ok example_decoder.
Proof. reflexivity. Qed.

(** The toy kernel writes 1, 2, 3, 4 into the four features: the two
    directions of feature 0 sum to 1 + 3; position (1, 1) is padding. *)
Example encoder_forward_example :
  exists o h,
    EncoderRNN_forward (fw := toy_framework) "GRU" example_encoder example_batch
      example_lengths None = Ok (o, h)
    /\ shape3 o = (2, 2, 2) /\ at3 o 0 0 0 = 4%R /\ at3 o 1 1 1 = 0%R.
Proof.
  eexists _, _. split; [reflexivity|]. split; [reflexivity|]. simpl. split; lra.
Qed.

Lemma Attn_forward_dot_general_witness :
  shape3 example_hidden = (1, 1, 2)
  /\ shape3 example_encoder_outputs = (2, 1, 2)
  /\ exists w, Attn_forward (mkAttn "dot" 2 None None) example_hidden
                 example_encoder_outputs = Ok w
       /\ shape3 w = (1, 1, 2)
       /\ at3 w 0 0 0 = (exp 11 / (exp 11 + exp 17))%R.
Proof.
  split; [reflexivity|]. split; [reflexivity|].
  destruct (Attn_forward_dot_general (fw := toy_framework) 2 1 2 example_hidden
              example_encoder_outputs eq_refl eq_refl) as [Hdot _].
  destruct (Hdot (mkAttn "dot" 2 None None) eq_refl)
    as [e [w [_ [_ [_ [Hf [Hsh Hw]]]]]]].
  exists w. split; [exact Hf|]. split; [exact Hsh|].
  rewrite (Hw 0 0) by lia. simpl.
  replace (0 + 1 * 3 + 2 * 4)%R with 11%R by lra.
  replace (0 + 1 * 5 + 2 * 6)%R with 17%R by lra.
  replace (0 + exp 11 + exp 17)%R with (exp 11 + exp 17)%R by lra.
  reflexivity.
Defined.

Lemma concat_score_energy_witness :
  Attn_init (fw := toy_framework) "concat" 2 = Ok example_concat_attn
  /\ shape3 example_hidden = (1, 1, 2)
  /\ shape3 example_encoder_outputs = (2, 1, 2)
  /\ exists e, concat_score example_concat_attn example_hidden
                 example_encoder_outputs = Ok e
       /\ shape2 e = (2, 1).
Proof.
  split; [reflexivity|]. split; [reflexivity|]. split; [reflexivity|].
  destruct (concat_score_energy (fw := toy_framework) 2 1 2 example_concat_attn
              example_hidden example_encoder_outputs eq_refl eq_refl eq_refl)
    as [lin [u [e [_ [_ [Hs [Hsh _]]]]]]].
  exists e. split; assumption.
Defined.



Lemma EncoderRNN_forward_sums_directions_witness :
  exists packed_outputs h outputs,
    EncoderRNN_run_rnn (fw := toy_framework) "GRU" example_encoder example_batch
      example_lengths None = Ok (Some (packed_outputs, h))
    /\ EncoderRNN_forward (fw := toy_framework) "GRU" example_encoder example_batch
         example_lengths None = Ok (outputs, h)
    /\ shape3 outputs = (2, 2, 2)
    /\ at3 outputs 0 0 0
       = (at3 (pad_packed_sequence packed_outputs) 0 0 0
          + at3 (pad_packed_sequence packed_outputs) 0 0 2)%R.
Proof.
  destruct (EncoderRNN_forward_sums_directions (fw := toy_framework) "GRU" 2
              example_embedding 1 0%R example_encoder example_batch example_lengths
              None)
    as [q [h [o [Hrun [_ [Hf [Hsh Hat]]]]]]].
  - reflexivity.
  - right. reflexivity.
  - reflexivity.
  - reflexivity.
  - simpl. lia.
  - simpl. lia.
  - lia.
  - reflexivity.
  - reflexivity.
  - repeat constructor; simpl; lia.
  - intros g _. reflexivity.
  - exists q, h, o. split; [exact Hrun|]. split; [exact Hf|]. split; [exact Hsh|].
    apply (Hat 0 0 0); simpl; lia.
Defined.

Lemma EncoderRNN_forward_lengths_precondition_witness :
  EncoderRNN_init (fw := toy_framework) "GRU" 2 example_embedding 1 0%R
  = Ok example_encoder
  /\ (exists r, EncoderRNN_forward (fw := toy_framework) "GRU" example_encoder
                  example_batch example_lengths None = Ok r)
  /\ (exists e, EncoderRNN_forward (fw := toy_framework) "GRU" example_encoder
                  example_batch [1; 2]%Z None = Raise (FrameworkError e)).
Proof.
  split; [reflexivity|].
  destruct (EncoderRNN_forward_lengths_precondition (fw := toy_framework) "GRU" 2
              example_embedding 1 0%R example_encoder example_batch example_lengths
              None eq_refl) as [_ [_ Hok]].
  destruct (EncoderRNN_forward_lengths_precondition (fw := toy_framework) "GRU" 2
              example_embedding 1 0%R example_encoder example_batch [1; 2]%Z
              None eq_refl) as [_ [Hbad _]].
  split.
  - apply Hok; try reflexivity; try (simpl; lia).
    + right. reflexivity.
    + repeat constructor; simpl; lia.
  - destruct (Hbad eq_refl _ eq_refl) as [e [_ [Hf _]]]. exists e. exact Hf.
Defined.

Lemma Decoder_forward_context_witness :
  exists output hidden,
    LuongAttnDecoderRNN_forward (fw := toy_framework) "GRU" example_decoder
      example_step None example_encoder_outputs = Ok (output, hidden)
    /\ shape2 output = (1, 3).
Proof.
  destruct (Decoder_forward_context (fw := toy_framework) "GRU" "dot"
              example_embedding 2 3 1 (1 / 10)%R example_decoder example_step None
              example_encoder_outputs 2)
    as [r [h [w [output [_ [_ [Hf [Hsh _]]]]]]]].
  - reflexivity.
  - right. reflexivity.
  - reflexivity.
  - reflexivity.
  - reflexivity.
  - intros l _. reflexivity.
  - reflexivity.
  - exists output, h. split; [exact Hf | exact Hsh].
Defined.

Lemma unknown_RNN_TYPE_unbound_local_witness :
  "RNN" <> "LSTM" /\ "RNN" <> "GRU"
  /\ EncoderRNN_init (fw := toy_framework) "RNN" 2 example_embedding 1 0%R
     = Ok (mkEncoderRNN 1 2 example_embedding None None)
  /\ EncoderRNN_forward (fw := toy_framework) "RNN"
       (mkEncoderRNN 1 2 example_embedding None None) example_batch
       example_lengths None
     = Raise (UnboundLocalError "outputs")
  /\ LuongAttnDecoderRNN_forward (fw := toy_framework) "RNN" example_decoder
       example_step None example_encoder_outputs
     = Raise (UnboundLocalError "rnn_output").
Proof.
  assert (Hl : "RNN" <> "LSTM") by discriminate.
  assert (Hg : "RNN" <> "GRU") by discriminate.
  destruct (unknown_RNN_TYPE_unbound_local (fw := toy_framework) "RNN" Hl Hg)
    as [Hinit [_ [Henc Hdec]]].
  split; [exact Hl|]. split; [exact Hg|]. split; [apply Hinit|]. split.
  - destruct (Henc (mkEncoderRNN 1 2 example_embedding None None) example_batch
                example_lengths None) as [_ Hub].
    apply (Hub _ _ eq_refl eq_refl).
  - destruct (Hdec example_decoder example_step None example_encoder_outputs)
      as [_ Hub].
    apply (Hub _ eq_refl).
Defined.

Lemma import_device_placement_witness :
  exists m, import_module (fw := toy_framework) (example_config cpu) 3 false = Ok m
    /\ on (encoder m) = cpu /\ on (decoder m) = cpu.
Proof.
  destruct (import_device_placement (fw := toy_framework) (example_config cpu) 3
              false example_encoder example_decoder eq_refl eq_refl eq_refl eq_refl)
    as [[_ Hok] [Hplaced _]].
  destruct (Hok (or_introl eq_refl)) as [m Hm].
  exists m. split; [exact Hm|].
  destruct (Hplaced m Hm) as [He [Hd _]]. rewrite He, Hd. split; reflexivity.
Defined.

(** With DEVICE = cuda the import fails on a machine without a CUDA
    device, and on a machine with one the module has moved both models to
    it. *)
Lemma import_device_counterexample :
  import_module (fw := toy_framework) (example_config cuda) 3 false
  = Raise (FrameworkError CudaUnavailable)
  /\ exists m, import_module (fw := toy_framework) (example_config cuda) 3 true = Ok m
       /\ on (encoder m) = cuda /\ on (decoder m) = cuda.
Proof.
  split; [reflexivity|].
  eexists. split; [reflexivity|]. split; reflexivity.
Qed.

Example import_optimizers_example :
  exists m, import_module (fw := toy_framework) (example_config cpu) 3 false = Ok m
    /\ opt_lr (encoder_optimizer m) = (1 / 1000)%R
    /\ opt_weight_decay (encoder_optimizer m) = 0%R
    /\ opt_lr (decoder_optimizer m) = (1 / 1000 * 5)%R
    /\ opt_weight_decay (decoder_optimizer m) = 1e-5%R
    /\ stdout m = [ OutStr "Building encoder and decoder ...";
                    OutStr "Models built and ready to go!";
                    OutStr "Building optimizers ...";
                    OutStr EmptyString;
                    OutStr "Nubmer of parameters for Encoder:";
                    OutNat 78;
                    OutStr "Nubmer of parameters for Decoder:";
                    OutNat 61;
                    OutStr EmptyString ].
Proof. eexists. repeat split; reflexivity. Qed.

(** * Further properties of the code *)

(** ** Padding in the encoder *)

Lemma count_longer_none (s : nat) (l : list Z) :
  (forall x, In x l -> (x <= Z.of_nat s)%Z) -> count_longer s l = 0.
Proof.
  unfold count_longer. induction l as [|a l IH]; intros Hall; simpl.
  - reflexivity.
  - replace (Z.of_nat s <? a)%Z with false
      by (symmetry; apply Z.ltb_ge; apply Hall; left; reflexivity).
    apply IH. intros x Hx. apply Hall. right. assumption.
Qed.

Lemma count_longer_cons (s : nat) (a : Z) (l : list Z) :
  count_longer s (a :: l)
  = (if (Z.of_nat s <? a)%Z then 1 else 0) + count_longer s l.
Proof. unfold count_longer. simpl. destruct (Z.of_nat s <? a)%Z; reflexivity. Qed.

(** In lengths sorted in decreasing order, the sequences still running at
    step [s] are the first ones of the batch. *)
Lemma count_longer_prefix (s b : nat) (l : list Z) :
  sorted_decreasing l = true -> b < count_longer s l -> (Z.of_nat s < nth b l 0)%Z.
Proof.
  revert b. induction l as [|a l IH]; intros b Hs Hb.
  - unfold count_longer in Hb. simpl in Hb. lia.
  - destruct (sorted_decreasing_cons a l Hs) as [Hs' Hle].
    rewrite count_longer_cons in Hb.
    destruct (Z.of_nat s <? a)%Z eqn:Ea.
    + apply Z.ltb_lt in Ea. destruct b as [|b]; simpl; [assumption|].
      apply IH; [assumption | lia].
    + apply Z.ltb_ge in Ea.
      rewrite count_longer_none in Hb; [simpl in Hb; lia|].
      intros x Hx. specialize (Hle x Hx). lia.
Qed.

Lemma packed_batch_sizes_nth (s : nat) (lengths : list Z) :
  s < Z.to_nat (hd 0%Z lengths) ->
  nth s (packed_batch_sizes lengths) 0 = count_longer s lengths.
Proof.
  intros Hs. unfold packed_batch_sizes.
  rewrite (nth_indep _ 0 (count_longer 0 lengths))
    by (rewrite length_map, length_seq; assumption).
  rewrite (map_nth (fun s => count_longer s lengths)).
  rewrite seq_nth by assumption. reflexivity.
Qed.

Section EncoderPadding.
Context {fw : Framework}.

Lemma RNN_forward_packed_batch_sizes (l : RNN) (p q : PackedSequence)
    (hx : option Hidden) (h : Hidden) :
  RNN_forward_packed l p hx = Ok (q, h) -> batch_sizes q = batch_sizes p.
Proof.
  unfold RNN_forward_packed.
  destruct (negb _); [discriminate|]. destruct (negb _); [discriminate|].
  destruct (negb _); [discriminate|]. intros [= <- _]. reflexivity.
Qed.

(** The packed output of lines 50-57 keeps the batch sizes of the lengths. *)
Lemma EncoderRNN_run_rnn_batch_sizes (rt : string) (self : EncoderRNN)
    (x : LongTensor2) (lengths : list Z) (hidden : option Hidden)
    (q : PackedSequence) (h : Hidden) :
  EncoderRNN_run_rnn rt self x lengths hidden = Ok (Some (q, h)) ->
  batch_sizes q = packed_batch_sizes lengths /\ List.length lengths = lcols x.
Proof.
  unfold EncoderRNN_run_rnn. intros Hrun.
  apply bind_Ok_inv in Hrun as [embedded [Hemb Hrun]].
  apply bind_Ok_inv in Hrun as [p [Hp Hrun]].
  apply Embedding_forward_dims in Hemb. injection Hemb as E0 E1 E2.
  destruct (pack_padded_sequence_inv _ _ _ Hp) as [_ [Hlen [_ [_ [Hbs _]]]]].
  split; [|congruence].
  destruct (String.eqb rt "LSTM"); [|destruct (String.eqb rt "GRU")].
  - apply bind_Ok_inv in Hrun as [l [_ Hrun]].
    apply bind_Ok_inv in Hrun as [[q' h'] [Hr Hq]]. injection Hq as <- <-.
    rewrite (RNN_forward_packed_batch_sizes _ _ _ _ _ Hr). exact Hbs.
  - apply bind_Ok_inv in Hrun as [l [_ Hrun]].
    apply bind_Ok_inv in Hrun as [[q' h'] [Hr Hq]]. injection Hq as <- <-.
    rewrite (RNN_forward_packed_batch_sizes _ _ _ _ _ Hr). exact Hbs.
  - discriminate.
Qed.

Lemma broadcast_dim_same_inv (n d : nat) : broadcast_dim n n = Some d -> d = n.
Proof. rewrite broadcast_dim_same. congruence. Qed.

(** X1.  Whenever [EncoderRNN.forward] returns, its outputs have as many
    time steps as the longest sequence (the first length), not as the
    padded input, one column per sequence of the batch, and they are zero
    at every padded position: at time step s of a sequence b whose length
    is at most s. *)
Theorem EncoderRNN_forward_padding_zero (rt : string) (self : EncoderRNN)
    (x : LongTensor2) (lengths : list Z) (hidden : option Hidden)
    (outputs : Tensor3) (h : Hidden) :
  EncoderRNN_forward rt self x lengths hidden = Ok (outputs, h) ->
  dim0 outputs = Z.to_nat (hd 0%Z lengths)
  /\ dim1 outputs = lcols x
  /\ forall s b k, s < dim0 outputs -> b < lcols x ->
       (nth b lengths 0 <= Z.of_nat s)%Z -> at3 outputs s b k = 0%R.
Proof.
  intros Hf.
  destruct (EncoderRNN_forward_lengths _ _ _ _ _ _ Hf) as [Hs Hall].
  unfold EncoderRNN_forward in Hf.
  apply bind_Ok_inv in Hf as [[[q h']|] [Hrun Hf]]; [|discriminate].
  apply bind_Ok_inv in Hf as [o [Ho Hf]]. injection Hf as <- <-.
  destruct (EncoderRNN_run_rnn_batch_sizes _ _ _ _ _ _ _ Hrun) as [Hbs Hlen].
  assert (Hne : lengths <> []).
  { intros ->. apply EncoderRNN_run_rnn_inv in Hrun as [emb [p [_ [Hp _]]]].
    destruct (pack_padded_sequence_inv _ _ _ Hp) as [_ [_ [Hlast _]]].
    simpl in Hlast. lia. }
  assert (Hpos : Forall (fun l => (0 < l)%Z) lengths).
  { eapply Forall_impl; [|exact Hall]. simpl. intros; lia. }
  unfold sum_directions, add3, broadcast3, slice_to, slice_from in Ho.
  cbn [dim0 dim1 dim2 at3] in Ho.
  rewrite !broadcast_dim_same in Ho.
  destruct (broadcast_dim _ _) as [d2|]; [|discriminate].
  injection Ho as <-. cbn [dim0 dim1 dim2 at3].
  unfold pad_packed_sequence. cbn [dim0 dim1 dim2 at3].
  rewrite Hbs, packed_batch_sizes_length, packed_batch_sizes_hd by assumption.
  split; [reflexivity|]. split; [exact Hlen|].
  intros s b k Hsl Hb Hpad.
  rewrite (bidx_lt _ s) by assumption.
  rewrite (bidx_lt _ b) by lia.
  rewrite packed_batch_sizes_nth by assumption.
  assert (Hnb : (b <? count_longer s lengths) = false).
  { apply Nat.ltb_ge. destruct (le_lt_dec (count_longer s lengths) b) as [|Hlt];
      [assumption|].
    pose proof (count_longer_prefix s b lengths Hs Hlt). lia. }
  rewrite Hnb. apply Rplus_0_l.
Qed.

(** X2.  With RNN_TYPE = "LSTM" the encoder does not pass [hidden] to its
    layer: the call gives the same result, or raises the same exception,
    as the call without it.  With "GRU" it does: on a batch the encoder
    accepts without [hidden], a hidden state that is not of the layer's
    kind and size makes the call raise. *)
Theorem EncoderRNN_forward_hidden_use (self : EncoderRNN) (x : LongTensor2)
    (lengths : list Z) (hidden : option Hidden) :
  EncoderRNN_forward "LSTM" self x lengths hidden
  = EncoderRNN_forward "LSTM" self x lengths None
  /\ (forall g r,
        enc_gru self = Some g ->
        EncoderRNN_forward "GRU" self x lengths None = Ok r ->
        hidden_ok g (lcols x) hidden = false ->
        EncoderRNN_forward "GRU" self x lengths hidden
        = Raise (FrameworkError RnnHiddenSize)).
Proof.
  split; [reflexivity|].
  intros g r Hg Hf Hbad.
  destruct (EncoderRNN_forward_lengths _ _ _ _ _ _ Hf) as [Hs Hall].
  assert (Hpos : Forall (fun l => (0 < l)%Z) lengths).
  { eapply Forall_impl; [|exact Hall]. simpl. intros; lia. }
  unfold EncoderRNN_forward in Hf |- *.
  apply bind_Ok_inv in Hf as [[[q h]|] [Hrun Hf]]; [|discriminate].
  unfold EncoderRNN_run_rnn in Hrun |- *.
  apply bind_Ok_inv in Hrun as [embedded [Hemb Hrun]].
  apply bind_Ok_inv in Hrun as [p [Hp Hrun]].
  rewrite Hemb. cbn [bind]. rewrite Hp. cbn [bind].
  cbn [String.eqb Ascii.eqb Bool.eqb] in Hrun |- *.
  rewrite Hg in Hrun |- *. cbn [getattr bind] in Hrun |- *.
  apply bind_Ok_inv in Hrun as [r' [Hr _]].
  apply Embedding_forward_dims in Hemb. injection Hemb as E0 E1 E2.
  destruct (pack_padded_sequence_inv _ _ _ Hp) as [_ [Hlen [Hlast [_ [Hbs _]]]]].
  assert (Hne : lengths <> []) by (intros ->; simpl in Hlast; lia).
  unfold RNN_forward_packed in Hr |- *.
  destruct (negb (cols (ps_data p) =? input_size g)); [discriminate|].
  rewrite Hbs, packed_batch_sizes_hd, Hlen, E1, Hbad by assumption.
  reflexivity.
Qed.

Lemma all_index_ok_false (n : nat) (x : LongTensor2) (i j : nat) :
  i < lrows x -> j < lcols x ->
  (lat x i j < 0 \/ Z.of_nat n <= lat x i j)%Z ->
  all_index_ok n x = false.
Proof.
  intros Hi Hj Hbad. unfold all_index_ok.
  apply not_true_is_false. intros Hall.
  rewrite forallb_forall in Hall.
  specialize (Hall i (proj2 (in_seq _ _ _) (conj (Nat.le_0_l i) Hi))).
  rewrite forallb_forall in Hall.
  specialize (Hall j (proj2 (in_seq _ _ _) (conj (Nat.le_0_l j) Hj))).
  unfold index_ok in Hall. apply andb_true_iff in Hall as [H0 H1].
  apply Z.leb_le in H0. apply Z.ltb_lt in H1. lia.
Qed.

(** X3.  The words are looked up before the batch is packed: a word index
    outside the vocabulary at any position of the input, padded or not,
    makes the encoder raise the lookup's error, whatever the lengths; and
    so does one in the decoder's input step. *)
Theorem forward_word_index_out_of_range (rt : string) (x : LongTensor2) (i j : nat) :
  i < lrows x -> j < lcols x ->
  (forall (self : EncoderRNN) lengths hidden,
     (lat x i j < 0
      \/ Z.of_nat (num_embeddings (enc_embedding self)) <= lat x i j)%Z ->
     EncoderRNN_forward rt self x lengths hidden
     = Raise (FrameworkError IndexOutOfRange))
  /\ (forall (self : LuongAttnDecoderRNN) last_hidden enc,
        (lat x i j < 0
         \/ Z.of_nat (num_embeddings (dec_embedding self)) <= lat x i j)%Z ->
        LuongAttnDecoderRNN_forward rt self x last_hidden enc
        = Raise (FrameworkError IndexOutOfRange)).
Proof.
  intros Hi Hj. split.
  - intros self lengths hidden Hbad.
    unfold EncoderRNN_forward, EncoderRNN_run_rnn, Embedding_forward.
    rewrite (all_index_ok_false _ x i j Hi Hj Hbad). reflexivity.
  - intros self last_hidden enc Hbad.
    unfold LuongAttnDecoderRNN_forward, Decoder_run_rnn, Embedding_forward.
    rewrite (all_index_ok_false _ x i j Hi Hj Hbad). reflexivity.
Qed.

End EncoderPadding.

(** ** Attention weights *)

Lemma sum_n_zero (n : nat) (f : nat -> R) :
  (forall k, k < n -> f k = 0%R) -> sum_n n f = 0%R.
Proof.
  induction n as [|n IH]; intros Hf; simpl; [reflexivity|].
  rewrite IH by (intros; apply Hf; lia). rewrite (Hf n) by lia. lra.
Qed.

Section AttnMore.
Context {fw : Framework}.

(** X5.  With a single encoder time step the weight of that step is 1 for
    every batch element, whatever the method and the values, so that the
    context vector is the encoder output itself. *)
Theorem Attn_forward_single_step (m : string) (H B : nat) (self : Attn)
    (hidden enc : Tensor3) :
  Attn_init m H = Ok self ->
  shape3 hidden = (1, B, H) -> shape3 enc = (1, B, H) ->
  exists w, Attn_forward self hidden enc = Ok w
    /\ shape3 w = (B, 1, 1)
    /\ (forall b, b < B -> at3 w b 0 0 = 1%R)
    /\ (forall b k, b < B -> attention_context w enc 1 b k = at3 enc 0 b k).
Proof.
  intros Hinit Hh He.
  destruct (Attn_forward_ok m H 1 B self hidden enc Hinit Hh He) as [e [_ [Hsh Hw]]].
  injection Hsh as Hr Hc.
  assert (Hone : forall b, b < B ->
            at3 (unsqueeze1 (softmax_dim1 (t e))) b 0 0 = 1%R).
  { intros b Hb. simpl. rewrite Hr. simpl.
    pose proof (exp_pos (at2 e 0 b)). field. lra. }
  eexists. split; [exact Hw|]. split; [|split].
  - unfold shape3. simpl. congruence.
  - exact Hone.
  - intros b k Hb. unfold attention_context. cbn [sum_n].
    rewrite (Hone b Hb). lra.
Qed.

(** X6.  The methods differ on a hidden state of batch size 1 against
    encoder outputs of a larger batch: "dot" and "general" broadcast the
    hidden state over the batch and return (B, 1, T) weights, while
    "concat", which concatenates the two tensors, raises. *)
Theorem Attn_forward_batch_broadcast (H T B : nat) (hidden enc : Tensor3) :
  shape3 hidden = (1, 1, H) -> shape3 enc = (T, B, H) -> B <> 1 ->
  (forall m self, m = "dot" \/ m = "general" ->
     Attn_init m H = Ok self ->
     exists w, Attn_forward self hidden enc = Ok w /\ shape3 w = (B, 1, T))
  /\ (forall self, Attn_init "concat" H = Ok self ->
        Attn_forward self hidden enc = Raise (FrameworkError ShapeMismatch)).
Proof.
  destruct hidden as [h0 h1 h2 fh], enc as [e0 e1 e2 fe]. unfold shape3.
  cbn [dim0 dim1 dim2]. intros Hh He HB.
  injection Hh as -> -> ->. injection He as -> -> ->.
  assert (Hmul : forall y, mul3 (mk3 1 1 H fh) (mk3 T B H y)
            = Ok (mk3 T B H (fun i j k =>
                   (fh (bidx 1 i) (bidx 1 j) (bidx H k)
                    * y (bidx T i) (bidx B j) (bidx H k))%R))).
  { intros y. unfold mul3, broadcast3. cbn [dim0 dim1 dim2 at3].
    rewrite !broadcast_dim_one, broadcast_dim_same. reflexivity. }
  split.
  - intros m self Hm Hinit. destruct Hm as [-> | ->].
    + rewrite Attn_init_dot in Hinit. injection Hinit as <-.
      unfold Attn_forward, attn_energies, dot_score.
      cbn [method String.eqb Ascii.eqb Bool.eqb]. rewrite Hmul. cbn [bind].
      eexists. split; reflexivity.
    + rewrite Attn_init_general in Hinit. injection Hinit as <-.
      unfold Attn_forward, attn_energies, general_score.
      cbn [method attn String.eqb Ascii.eqb Bool.eqb getattr bind].
      rewrite Linear_forward3_ok by reflexivity. cbn [bind dim0 dim1 dim2].
      cbn [nn_Linear out_features]. rewrite Hmul. cbn [bind].
      eexists. split; reflexivity.
  - intros self Hinit. rewrite Attn_init_concat in Hinit. injection Hinit as <-.
    unfold Attn_forward, attn_energies, concat_score.
    cbn [method attn String.eqb Ascii.eqb Bool.eqb getattr bind dim0].
    assert (Hex : exists y, expand0 (mk3 1 1 H fh) T = Ok y /\ dim0 y = T /\ dim1 y = 1).
    { destruct (expand0_row (mk3 1 1 H fh) T 1 H eq_refl) as [y [Hy [Hsh _]]].
      injection Hsh as E0 E1 E2. exists y. auto. }
    destruct Hex as [y [Hy [Y0 Y1]]]. rewrite Hy. cbn [bind].
    unfold cat_dim2. cbn [dim0 dim1]. rewrite Y0, Y1, Nat.eqb_refl.
    replace (1 =? B) with false by (symmetry; apply Nat.eqb_neq; lia).
    reflexivity.
Qed.

(** X7.  With method "dot", a position whose encoder output is zero in
    every feature (as the padded positions of the encoder's outputs are)
    has energy 0, whatever the hidden state. *)
Theorem dot_score_zero_row (T B H : nat) (hidden enc : Tensor3) (s b : nat) :
  shape3 hidden = (1, B, H) -> shape3 enc = (T, B, H) ->
  s < T -> b < B ->
  (forall k, k < H -> at3 enc s b k = 0%R) ->
  exists e, dot_score hidden enc = Ok e /\ at2 e s b = 0%R.
Proof.
  intros Hh He Hs Hb Hz.
  destruct (dot_score_spec hidden enc T B H Hh He) as [e [Hd [_ Hat]]].
  exists e. split; [exact Hd|].
  rewrite Hat by assumption. apply sum_n_zero.
  intros k Hk. rewrite (Hz k Hk). lra.
Qed.

End AttnMore.

(** ** The decoding step *)

Section DecoderMore.
Context {fw : Framework}.

Lemma Decoder_run_rnn_dims (rt : string) (self : LuongAttnDecoderRNN)
    (x : LongTensor2) (last_hidden : option Hidden) (r : Tensor3) (h : Hidden) :
  Decoder_run_rnn rt self x last_hidden = Ok (Some (r, h)) ->
  dim0 r = lrows x /\ dim1 r = lcols x.
Proof.
  unfold Decoder_run_rnn. intros Hrun.
  apply bind_Ok_inv in Hrun as [embedded [Hemb Hrun]].
  apply Embedding_forward_dims in Hemb.
  assert (Hd : shape3 (Dropout_forward (dec_embedding_dropout self) embedded)
               = (lrows x, lcols x, embedding_dim (dec_embedding self))).
  { unfold Dropout_forward. rewrite dropout_kernel_shape. exact Hemb. }
  set (e' := Dropout_forward (dec_embedding_dropout self) embedded) in *.
  injection Hd as D0 D1 _.
  assert (Hstep : forall l, RNN_forward l e' last_hidden = Ok (r, h) ->
            dim0 r = lrows x /\ dim1 r = lcols x).
  { intros l. unfold RNN_forward.
    destruct (negb _); [discriminate|]. destruct (negb _); [discriminate|].
    intros [= Hk]. pose proof (rnn_kernel_shape l e' last_hidden) as Hs.
    rewrite Hk in Hs. cbn [fst] in Hs. injection Hs as S0 S1 _.
    split; congruence. }
  destruct (String.eqb rt "LSTM"); [|destruct (String.eqb rt "GRU")].
  - apply bind_Ok_inv in Hrun as [l [_ Hrun]].
    apply bind_Ok_inv in Hrun as [[r' h'] [Hr Hq]]. injection Hq as <- <-.
    apply (Hstep l Hr).
  - apply bind_Ok_inv in Hrun as [l [_ Hrun]].
    apply bind_Ok_inv in Hrun as [[r' h'] [Hr Hq]]. injection Hq as <- <-.
    apply (Hstep l Hr).
  - discriminate.
Qed.

Lemma Linear_forward2_inv (l : Linear) (x y : Tensor2) :
  Linear_forward2 l x = Ok y ->
  cols x = in_features l /\ rows y = rows x /\ cols y = out_features l.
Proof.
  unfold Linear_forward2. destruct (cols x =? in_features l) eqn:E; [|discriminate].
  intros [= <-]. apply Nat.eqb_eq in E. auto.
Qed.

(** X9.  The decoder runs one step at a time, on the batch the encoder
    outputs were computed for: whenever [forward] returns, the input step
    has exactly one row, the encoder outputs have the batch size of the
    input, and the output has one row per sequence and one column per
    output of the last layer; a call with more rows, or with encoder
    outputs of another batch size, cannot return. *)
Theorem Decoder_forward_one_step (rt : string) (self : LuongAttnDecoderRNN)
    (x : LongTensor2) (last_hidden : option Hidden) (enc : Tensor3)
    (output : Tensor2) (h : Hidden) :
  LuongAttnDecoderRNN_forward rt self x last_hidden enc = Ok (output, h) ->
  lrows x = 1 /\ dim1 enc = lcols x
  /\ shape2 output = (lcols x, out_features (dec_out self)).
Proof.
  unfold LuongAttnDecoderRNN_forward. intros Hf.
  apply bind_Ok_inv in Hf as [[[r h']|] [Hrun Hf]]; [|discriminate].
  apply bind_Ok_inv in Hf as [w [_ Hf]].
  apply bind_Ok_inv in Hf as [out [Hout Hf]]. injection Hf as <- <-.
  destruct (Decoder_run_rnn_dims _ _ _ _ _ _ Hrun) as [R0 R1].
  unfold Decoder_output in Hout.
  apply bind_Ok_inv in Hout as [context [Hbmm Hout]].
  unfold bmm in Hbmm.
  destruct ((dim0 w =? dim0 (transpose01 enc)) && (dim2 w =? dim1 (transpose01 enc)))
    eqn:Eb; [|discriminate].
  apply andb_true_iff in Eb as [Eb _]. apply Nat.eqb_eq in Eb. cbn [transpose01 dim0] in Eb.
  injection Hbmm as <-.
  unfold squeeze0, squeeze1 in Hout. cbn [dim0 dim1 dim2 at3] in Hout.
  destruct (dim0 r =? 1) eqn:E0; [|destruct (dim1 w =? 1); discriminate].
  destruct (dim1 w =? 1); [|discriminate].
  apply Nat.eqb_eq in E0.
  apply bind_Ok_inv in Hout as [ci [Hcat Hout]].
  apply bind_Ok_inv in Hout as [c [Hc Hout]].
  apply bind_Ok_inv in Hout as [o [Ho Hout]]. injection Hout as <-.
  unfold cat_dim1 in Hcat. cbn [rows cols at2] in Hcat.
  destruct (dim1 r =? dim0 w) eqn:Er; [|discriminate].
  apply Nat.eqb_eq in Er. injection Hcat as <-.
  apply Linear_forward2_inv in Hc as [_ [Hcr _]].
  apply Linear_forward2_inv in Ho as [_ [Hor Hoc]].
  cbn [tanh2 rows cols] in *.
  split; [congruence|]. split; [congruence|].
  unfold shape2. cbn [softmax_dim1 rows cols]. f_equal; congruence.
Qed.

End DecoderMore.

(** ** The import *)

Section ImportMore.
Context {fw : Framework}.

Lemma state_items_cuda_true (s : param_state) :
  state_items_cuda true s = Ok (map (fun kv => (fst kv, value_on_cuda (snd kv))) s).
Proof.
  induction s as [|[k v] s IH]; [reflexivity|].
  simpl. rewrite IH. destruct v; reflexivity.
Qed.

Lemma state_items_cuda_false (s : param_state) :
  state_items_cuda false s
  = if existsb (fun kv => is_tensor (snd kv)) s
    then Raise (FrameworkError CudaUnavailable) else Ok s.
Proof.
  induction s as [|[k v] s IH]; [reflexivity|].
  simpl. destruct v; simpl; [reflexivity|].
  rewrite IH. destruct (existsb _ s); reflexivity.
Qed.

Lemma state_values_cuda_true (st : list (nat * param_state)) :
  state_values_cuda true st = Ok (state_on_cuda st).
Proof.
  induction st as [|[p s] st IH]; [reflexivity|].
  simpl. rewrite state_items_cuda_true. simpl. rewrite IH. reflexivity.
Qed.

Lemma holds_tensor_cons (p : nat) (s : param_state) (st : list (nat * param_state)) :
  holds_tensor ((p, s) :: st)
  = existsb (fun kv => is_tensor (snd kv)) s || holds_tensor st.
Proof. reflexivity. Qed.

Lemma state_values_cuda_false (st : list (nat * param_state)) :
  state_values_cuda false st
  = if holds_tensor st then Raise (FrameworkError CudaUnavailable) else Ok st.
Proof.
  induction st as [|[p s] st IH]; [reflexivity|].
  cbn [state_values_cuda]. rewrite state_items_cuda_false, holds_tensor_cons.
  destruct (existsb (fun kv => is_tensor (snd kv)) s); cbn [bind orb];
    [reflexivity|].
  rewrite IH. destruct (holds_tensor st); reflexivity.
Qed.

(** X12.  The loops of lines 217-225 over an optimizer's state, on any
    state: with a CUDA device they put every tensor of the state on it and
    keep the parameters, the keys and the values that are not tensors; with
    no CUDA device they raise as soon as the state holds a tensor, and
    leave a state without tensors as it is. *)
Theorem optimizer_state_cuda_spec (o : Optimizer) :
  optimizer_state_cuda true o
  = Ok (mkOptimizer (opt_class o) (opt_params o) (opt_lr o) (opt_weight_decay o)
          (state_on_cuda (opt_state o)))
  /\ (holds_tensor (opt_state o) = true ->
      optimizer_state_cuda false o = Raise (FrameworkError CudaUnavailable))
  /\ (holds_tensor (opt_state o) = false ->
      optimizer_state_cuda false o = Ok o).
Proof.
  unfold optimizer_state_cuda. split; [|split].
  - rewrite state_values_cuda_true. reflexivity.
  - intros Ht. rewrite state_values_cuda_false, Ht. reflexivity.
  - intros Ht. rewrite state_values_cuda_false, Ht. destruct o. reflexivity.
Qed.



End ImportMore.

Example optimizer_state_cuda_example :
  holds_tensor example_stepped_state = true
  /\ state_on_cuda example_stepped_state
     = [(0, [("step", StateOther); ("exp_avg", StateTensor cuda);
             ("exp_avg_sq", StateTensor cuda)])].
Proof. split; reflexivity. Qed.

(** ** Concrete runs of the further properties *)

Lemma EncoderRNN_forward_padding_zero_witness :
  exists outputs h,
    EncoderRNN_forward (fw := toy_framework) "GRU" example_encoder example_batch
      example_lengths None = Ok (outputs, h)
    /\ dim0 outputs = 2 /\ dim1 outputs = 2
    /\ at3 outputs 1 1 0 = 0%R /\ at3 outputs 1 1 1 = 0%R.
Proof.
  destruct (EncoderRNN_forward_ok (fw := toy_framework) "GRU" 2 example_embedding 1
              0%R example_encoder example_batch example_lengths None)
    as [q [h [o [_ [_ [Hf _]]]]]];
    try reflexivity; try (simpl; lia).
  - right. reflexivity.
  - repeat constructor; simpl; lia.
  - destruct (EncoderRNN_forward_padding_zero (fw := toy_framework) "GRU"
                example_encoder example_batch example_lengths None o h Hf)
      as [H0 [H1 Hz]].
    exists o, h. split; [exact Hf|]. split; [exact H0|]. split; [exact H1|].
    split; apply Hz; try (rewrite H0); simpl; lia.
Defined.

Lemma forward_word_index_out_of_range_witness :
  1 < lrows example_bad_padding /\ 1 < lcols example_bad_padding
  /\ EncoderRNN_forward (fw := toy_framework) "GRU" example_encoder
       example_bad_padding example_lengths None
     = Raise (FrameworkError IndexOutOfRange).
Proof.
  assert (Hi : 1 < lrows example_bad_padding) by (simpl; lia).
  assert (Hj : 1 < lcols example_bad_padding) by (simpl; lia).
  split; [exact Hi|]. split; [exact Hj|].
  destruct (forward_word_index_out_of_range (fw := toy_framework) "GRU"
              example_bad_padding 1 1 Hi Hj) as [Henc _].
  apply Henc. right. simpl. lia.
Defined.

Lemma Attn_forward_single_step_witness :
  exists w, Attn_forward (mkAttn "dot" 2 None None) example_hidden
              example_single_step = Ok w
    /\ at3 w 0 0 0 = 1%R
    /\ attention_context w example_single_step 1 0 1 = 4%R.
Proof.
  destruct (Attn_forward_single_step (fw := toy_framework) "dot" 2 1
              (mkAttn "dot" 2 None None) example_hidden example_single_step
              eq_refl eq_refl eq_refl) as [w [Hw [_ [Hone Hctx]]]].
  exists w. split; [exact Hw|]. split; [apply Hone; lia|].
  rewrite Hctx by lia. reflexivity.
Defined.

Lemma Attn_forward_batch_broadcast_witness :
  (exists w, Attn_forward (mkAttn "dot" 2 None None) example_hidden
               example_batch_outputs = Ok w /\ shape3 w = (2, 1, 1))
  /\ Attn_forward example_concat_attn example_hidden example_batch_outputs
     = Raise (FrameworkError ShapeMismatch).
Proof.
  assert (HB : 2 <> 1) by discriminate.
  destruct (Attn_forward_batch_broadcast (fw := toy_framework) 2 1 2 example_hidden
              example_batch_outputs eq_refl eq_refl HB) as [Hdot Hconcat].
  split.
  - apply (Hdot "dot"); [left; reflexivity | reflexivity].
  - apply Hconcat. reflexivity.
Defined.

Lemma dot_score_zero_row_witness :
  exists e, dot_score example_hidden example_padded_outputs = Ok e
    /\ at2 e 1 0 = 0%R.
Proof.
  apply (dot_score_zero_row 2 1 2 example_hidden example_padded_outputs 1 0
           eq_refl eq_refl); try lia.
  intros k Hk. destruct k as [|[|k]]; [reflexivity | reflexivity | lia].
Defined.

Lemma Decoder_forward_one_step_witness :
  exists output hidden,
    LuongAttnDecoderRNN_forward (fw := toy_framework) "GRU" example_decoder
      example_step None example_encoder_outputs = Ok (output, hidden)
    /\ lrows example_step = 1
    /\ dim1 example_encoder_outputs = lcols example_step
    /\ shape2 output = (1, 3).
Proof.
  destruct (Decoder_forward_ok (fw := toy_framework) "GRU" "dot" example_embedding
              2 3 1 (1 / 10)%R example_decoder example_step None
              example_encoder_outputs 2)
    as [r [h [w [output [_ [_ [_ [_ [Hf _]]]]]]]]]; try reflexivity.
  - right. reflexivity.
  - destruct (Decoder_forward_one_step (fw := toy_framework) "GRU" example_decoder
                example_step None example_encoder_outputs output h Hf)
      as [H1 [H2 H3]].
    exists output, h. split; [exact Hf|]. split; [exact H1|]. split; [exact H2|].
    exact H3.
Defined.

Lemma EncoderRNN_forward_hidden_use_witness :
  EncoderRNN_forward (fw := toy_framework) "GRU" example_encoder example_batch
    example_lengths example_bad_hidden
  = Raise (FrameworkError RnnHiddenSize).
Proof.
  destruct (EncoderRNN_forward_ok (fw := toy_framework) "GRU" 2 example_embedding 1
              0%R example_encoder example_batch example_lengths None)
    as [q [h [o [_ [_ [Hf _]]]]]].
  - reflexivity.
  - right. reflexivity.
  - reflexivity.
  - reflexivity.
  - simpl. lia.
  - simpl. lia.
  - lia.
  - reflexivity.
  - reflexivity.
  - repeat constructor; simpl; lia.
  - intros g _. reflexivity.
  - destruct (EncoderRNN_forward_hidden_use (fw := toy_framework) example_encoder
                example_batch example_lengths example_bad_hidden) as [_ Hgru].
    apply (Hgru _ _ eq_refl Hf). reflexivity.
Defined.


Lemma optimizer_state_cuda_spec_witness :
  optimizer_state_cuda false
    (mkOptimizer "Adam" (EncoderParameters example_encoder) 0%R 0%R
       example_stepped_state)
  = Raise (FrameworkError CudaUnavailable)
  /\ exists o,
       optimizer_state_cuda true
         (mkOptimizer "Adam" (EncoderParameters example_encoder) 0%R 0%R
            example_stepped_state) = Ok o
       /\ opt_state o
          = [(0, [("step", StateOther); ("exp_avg", StateTensor cuda);
                  ("exp_avg_sq", StateTensor cuda)])].
Proof.
  destruct (optimizer_state_cuda_spec
              (mkOptimizer "Adam" (EncoderParameters example_encoder) 0%R 0%R
                 example_stepped_state)) as [Hcuda [Hnone _]].
  split; [apply Hnone; reflexivity|].
  eexists. split; [exact Hcuda | reflexivity].
Defined.

